(** * Inventory planner: BOM explosion, ledger reconciliation, coverage simulation

    A shallow embedding of [process_workbook] and its helpers from
    [inventory_planner_app.py], and the properties of the planning pipeline
    proved (or refuted) on it.

    Conventions.
    - Spreadsheet coordinates are 1-based Python integers, modelled in [Z].
    - A worksheet is a finite map from (row, column) to cell values, together
      with the dimensions [max_row] and [max_column] that the loops read once
      before iterating.
    - Python exceptions are the [Raise] branch of the result type [res].
    - Quantities are Python floats.  The development is parametric in the
      number type [F] and its operations (class [PyFloat]); a theorem that
      needs an arithmetic law states it as a hypothesis.  The integer instance
      [Z_PyFloat] is used to run the model on concrete workbooks.
    - Strings are byte strings; [strip] and [upper] follow Python on the
      ASCII range. *)

From Stdlib Require Import ZArith Lia Ascii String.
From stdpp Require Import gmap strings list sorting pretty.

Local Open Scope string_scope.
Local Open Scope Z_scope.
Local Open Scope list_scope.

(** ** Exceptions and results *)

Inductive exn : Type :=
  | TypeError
  | ValueError (msg : string)
  | IndexError
  | StopIteration.

(** [str(e)], which the caller interpolates into its error banner: the
    message given to a [ValueError], the empty string for a [StopIteration]
    raised by [next].  The wording of the other two depends on the operand
    and is not modelled. *)
Definition exn_message (e : exn) : option string :=
  match e with
  | ValueError msg => Some msg
  | StopIteration => Some ""
  | TypeError | IndexError => None
  end.

Inductive res (A : Type) : Type :=
  | Ok (a : A)
  | Raise (e : exn).
Arguments Ok {A} a.
Arguments Raise {A} e.

#[export] Instance res_ret : MRet res := fun _ a => Ok a.
#[export] Instance res_bind : MBind res := fun _ _ f m =>
  match m with
  | Ok a => f a
  | Raise e => Raise e
  end.

(** [try: body except Exception: handler] *)
Definition try_except {A} (body : res A) (handler : A) : A :=
  match body with
  | Ok a => a
  | Raise _ => handler
  end.

(** ** Python integers, ranges and sequences *)

(** [range(lo, hi)] *)
Definition py_range (lo hi : Z) : list Z :=
  (fun i : nat => lo + Z.of_nat i) <$> seq 0 (Z.to_nat (hi - lo)).

(** [l[i]] on a list or tuple: negative indices count from the end, an index
    out of range raises [IndexError]. *)
Definition py_index {A} (l : list A) (i : Z) : res A :=
  let j := if i <? 0 then Z.of_nat (length l) + i else i in
  if j <? 0 then Raise IndexError
  else match l !! Z.to_nat j with
       | Some a => Ok a
       | None => Raise IndexError
       end.

(** ** Strings *)

(** [c.isspace()] for an ASCII character. *)
Definition py_isspace (c : ascii) : bool :=
  let n := Ascii.N_of_ascii c in
  ((9 <=? n) && (n <=? 13) || (28 <=? n) && (n <=? 32))%N.

Definition ascii_upper (c : ascii) : ascii :=
  let n := Ascii.N_of_ascii c in
  if ((97 <=? n) && (n <=? 122))%N then Ascii.ascii_of_N (n - 32) else c.

Definition ascii_lower (c : ascii) : ascii :=
  let n := Ascii.N_of_ascii c in
  if ((65 <=? n) && (n <=? 90))%N then Ascii.ascii_of_N (n + 32) else c.

Fixpoint str_map (f : ascii -> ascii) (s : string) : string :=
  match s with
  | EmptyString => EmptyString
  | String c s' => String (f c) (str_map f s')
  end.

Definition upper : string -> string := str_map ascii_upper.
Definition lower : string -> string := str_map ascii_lower.

Fixpoint lstrip (s : string) : string :=
  match s with
  | EmptyString => EmptyString
  | String c s' => if py_isspace c then lstrip s' else s
  end.

Definition rstrip (s : string) : string := String.rev (lstrip (String.rev s)).

Definition strip (s : string) : string := rstrip (lstrip s).

(** [s.replace(old, new)] for one-character [old] and [new]: every occurrence
    is replaced. *)
Definition replace_char (old new : ascii) (s : string) : string :=
  str_map (fun c => if decide (c = old) then new else c) s.

(** [sep.join(l)] *)
Fixpoint join (sep : string) (l : list string) : string :=
  match l with
  | [] => ""
  | [s] => s
  | s :: l' => (s ++ sep ++ join sep l')%string
  end.

(** ** Numbers and cell values *)

(** The float operations the pipeline uses.  [float_of_string s] is the
    builtin [float(s)] on a string ([None] when it raises [ValueError]) and
    [float_str x] is [str(x)] on a number; both belong to the Python runtime,
    not to the repository. *)
Class PyFloat (F : Type) : Type := {
  f0 : F;
  fadd : F -> F -> F;
  fsub : F -> F -> F;
  fmul : F -> F -> F;
  flt : F -> F -> bool;
  float_of_string : string -> option F;
  float_str : F -> string;
}.

(** [a > b] *)
Definition fgt `{PyFloat F} (a b : F) : bool := flt b a.


(** [sum] of a sequence, left to right from zero. *)
Definition fsum `{PyFloat F} (l : list F) : F := fold_left fadd l f0.

(** What a worksheet cell can hold: nothing, text, a number, or some other
    object (a date, a time, ...) of which only [str()] is observed. *)
Inductive value (F : Type) : Type :=
  | VNone
  | VStr (s : string)
  | VNum (x : F)
  | VOther (repr : string).
Arguments VNone {F}.
Arguments VStr {F} s.
Arguments VNum {F} x.
Arguments VOther {F} repr.

Section Helpers.
Context `{PyFloat F}.

(** [str(x)] *)
Definition py_str (x : value F) : string :=
  match x with
  | VNone => "None"
  | VStr s => s
  | VNum f => float_str f
  | VOther repr => repr
  end.

(** The builtin [float(x)]. *)
Definition py_float (x : value F) : res F :=
  match x with
  | VNone => Raise TypeError
  | VStr s =>
      match float_of_string s with
      | Some f => Ok f
      | None => Raise (ValueError "could not convert string to float")
      end
  | VNum f => Ok f
  | VOther _ => Raise TypeError
  end.

(** The body of the [try] block of [safe_float]. *)
Definition safe_float_body (x : value F) : res F :=
  let x := match x with
           | VStr s => VStr (replace_char ","%char "."%char s)
           | _ => x
           end in
  py_float x.

Definition safe_float (x : value F) : F :=
  try_except (safe_float_body x) f0.

Definition clean_comp (x : value F) : string :=
  upper (strip (py_str x)).

(** [v == s] for a cell value and a string literal. *)
Definition value_eq_str (v : value F) (s : string) : bool :=
  match v with
  | VStr s' => bool_decide (s' = s)
  | _ => false
  end.
End Helpers.

(** ** Monadic loops *)

(** A [for] loop threading a state through a body that may raise. *)
Fixpoint foldM {A B} (f : A -> B -> res A) (a : A) (l : list B) : res A :=
  match l with
  | [] => Ok a
  | x :: l' => a' ← f a x; foldM f a' l'
  end.

(** [enumerate(l, start)] *)
Fixpoint enumerate_from {A} (start : Z) (l : list A) : list (Z * A) :=
  match l with
  | [] => []
  | x :: l' => (start, x) :: enumerate_from (start + 1) l'
  end.

(** Distinct elements in order of first appearance (group keys of a
    [groupby(..., sort=False)]). *)
Fixpoint unique `{EqDecision A} (l : list A) : list A :=
  match l with
  | [] => []
  | x :: l' => x :: filter (fun y => y ≠ x) (unique l')
  end.

(** Calendar dates ([datetime.date]), by their ordinal. *)
Abbreviation date := Z (only parsing).

(** ** Tables of the explosion *)

Section Tables.
Context {F : Type}.

(** A row of [bom_small]: the BOM after [dropna] and numeric coercion. *)
Record BOMEntry : Type := {
  bom_FG : string;
  bom_Component : string;
  bom_CompQty : F;
}.

(** A data row of the wide plan table: the finished good and one cell per
    date column ([None] is a missing cell). *)
Record PlanLine : Type := {
  line_FG : string;
  line_cells : list (option F);
}.

(** A row of the melted plan ([None] is a missing quantity). *)
Record MeltRow : Type := {
  melt_FG : string;
  melt_Date : date;
  melt_QtyPlanned : option F;
}.

(** A row of [plan_long]. *)
Record PlanRow : Type := {
  plan_FG : string;
  plan_Date : date;
  plan_QtyPlanned : F;
}.

(** A row of [merged]. *)
Record MergedRow : Type := {
  m_FG : string;
  m_Component : string;
  m_CompQty : F;
  m_Date : date;
  m_QtyPlanned : F;
  m_TotalNeed : F;
}.

(** A row of [tot_need_df]. *)
Record NeedRow : Type := {
  n_Component : string;
  n_Date : date;
  n_TotalNeed : F;
}.

(** A worksheet. *)
Record sheet : Type := {
  max_row : Z;
  max_column : Z;
  cells : gmap (Z * Z) (value F);
}.
End Tables.
Arguments BOMEntry F : clear implicits.
Arguments PlanLine F : clear implicits.
Arguments MeltRow F : clear implicits.
Arguments PlanRow F : clear implicits.
Arguments MergedRow F : clear implicits.
Arguments NeedRow F : clear implicits.
Arguments sheet F : clear implicits.

(** A row of [shortages]: (date, component, finished-good codes). *)
Abbreviation shortage := (Z * string * string)%type (only parsing).

(** The marker written when no finished good is known for a shortage. *)
Definition placeholder : string := "–".

(** ** The pipeline *)

Section Pipeline.
Context `{PyFloat F}.

(** *** Step 3: total daily need *)

(** [plan_data.melt(id_vars="FG", value_vars=date_cols, ...)]: one block of
    rows per date column, in column order. *)
Definition melt (date_cols : list date) (plan_data : list (PlanLine F))
  : list (MeltRow F) :=
  '(j, d) ← enumerate_from 0 date_cols;
  (fun ln => {| melt_FG := line_FG ln;
                melt_Date := d;
                melt_QtyPlanned := mjoin (line_cells ln !! Z.to_nat j) |})
    <$> plan_data.

(** [.dropna(subset=["QtyPlanned"])] *)
Definition dropna (rows : list (MeltRow F)) : list (PlanRow F) :=
  omap (fun r => (fun q => {| plan_FG := melt_FG r;
                              plan_Date := melt_Date r;
                              plan_QtyPlanned := q |})
                   <$> melt_QtyPlanned r) rows.

(** [bom_small.merge(plan_long, on="FG", how="inner")] followed by
    [.assign(TotalNeed = CompQty * QtyPlanned)]. *)
Definition merge (bom : list (BOMEntry F)) (plan_long : list (PlanRow F))
  : list (MergedRow F) :=
  b ← bom;
  (fun p => {| m_FG := bom_FG b;
               m_Component := bom_Component b;
               m_CompQty := bom_CompQty b;
               m_Date := plan_Date p;
               m_QtyPlanned := plan_QtyPlanned p;
               m_TotalNeed := fmul (bom_CompQty b) (plan_QtyPlanned p) |})
    <$> filter (fun p => plan_FG p = bom_FG b) plan_long.

Definition group_key (m : MergedRow F) : string * Z :=
  (m_Component m, m_Date m).

(** [merged.groupby(["Component", "Date"], as_index=False, sort=False)
           .agg(TotalNeed=("TotalNeed", "sum"))] *)
Definition groupby_sum (merged : list (MergedRow F)) : list (NeedRow F) :=
  (fun k => {| n_Component := k.1;
               n_Date := k.2;
               n_TotalNeed :=
                 fsum (m_TotalNeed <$>
                         filter (fun m => group_key m = k) merged) |})
    <$> unique (group_key <$> merged).

(** [explode]: the explosion table from the BOM and the long plan. *)
Definition explode (bom : list (BOMEntry F)) (plan_long : list (PlanRow F))
  : list (NeedRow F) :=
  groupby_sum (merge bom plan_long).

(** The dict comprehension building [need_lookup]: a later row with the
    same normalised key replaces an earlier one. *)
Definition build_need_lookup (tot_need_df : list (NeedRow F))
  : gmap (string * Z) F :=
  foldl (fun acc r =>
           <[(clean_comp (VStr (n_Component r) : value F), n_Date r)
             := n_TotalNeed r]> acc)
        ∅ tot_need_df.

(** *** Step 6 (first part): finished goods behind each need *)

Definition build_fg_map (merged : list (MergedRow F))
  : gmap (string * Z) (gset string) :=
  foldl (fun acc m =>
           let k := (clean_comp (VStr (m_Component m) : value F), m_Date m) in
           <[k := default ∅ (acc !! k) ∪ {[m_FG m]}]> acc)
        ∅ merged.

(** [fg_map[key]] on the [defaultdict(set)]. *)
Definition fg_lookup (fg_map : gmap (string * Z) (gset string))
    (key : string * Z) : gset string :=
  default ∅ (fg_map !! key).

(** [sorted(s)] on a set of strings. *)
Definition sorted (s : gset string) : list string :=
  merge_sort String.le (elements s).

(** [sorted(s) or ["–"]] *)
Definition fg_codes (s : gset string) : list string :=
  match sorted s with
  | [] => [placeholder]
  | l => l
  end.

Definition render_fgs (s : gset string) : string := join ", " (fg_codes s).

(** *** Worksheet access *)

(** [ws.cell(r, c).value] *)
Definition cell_value (ws : sheet F) (r c : Z) : value F :=
  default VNone (cells ws !! (r, c)).

(** [ws.cell(r, c).value = v] *)
Definition set_cell (ws : sheet F) (r c : Z) (v : value F) : sheet F :=
  {| max_row := max_row ws;
     max_column := max_column ws;
     cells := <[(r, c) := v]> (cells ws) |}.

(** [ws.iter_rows(min_row, max_row, max_col, values_only=True)]: one tuple
    per row, padded with [None] to [max_col] entries; a zero [max_col]
    falls back to the sheet's width. *)
Definition row_values (ws : sheet F) (max_col r : Z) : list (value F) :=
  cell_value ws r <$> py_range 1 (max_col + 1).

Definition iter_rows (ws : sheet F) (min_row max_row' max_col : Z)
  : list (list (value F)) :=
  let max_col := if max_col =? 0 then max_column ws else max_col in
  row_values ws max_col <$> py_range min_row (max_row' + 1).

(** *** Step 5: sync of the requirement sheet *)

(** [next((r for r in range(1, max_row + 1)
           if str(cell(r, 1).value).strip().lower() == "component"), None)] *)
Definition find_component_header (ws : sheet F) : option Z :=
  head (filter (fun r => lower (strip (py_str (cell_value ws r 1)))
                         = "component")
               (py_range 1 (max_row ws + 1))).

(** The body of the inner loop from the lookup on. *)
Definition reconcile_cell (need_lookup : gmap (string * Z) F)
    (comp : string) (day : date) (ws : sheet F) (r col_idx : Z) : sheet F :=
  match need_lookup !! (comp, day) with
  | None => ws
  | Some new_val =>
      let old_val := safe_float (cell_value ws r col_idx) in
      if fgt new_val old_val then set_cell ws r col_idx (VNum new_val)
      else ws
  end.

(** One iteration of the loop over the rows below the header. *)
Definition reconcile_row (need_lookup : gmap (string * Z) F)
    (ordered_dates : list date) (date_cols_idx : list Z)
    (ws : sheet F) (r : Z) : res (sheet F) :=
  let comp := clean_comp (cell_value ws r 1) in
  if decide (comp = "") then Ok ws
  else
    foldM (fun ws '(i, col_idx) =>
             day ← py_index ordered_dates i;
             Ok (reconcile_cell need_lookup comp day ws r col_idx))
          ws (enumerate_from 0 date_cols_idx).

Definition reconcile (need_lookup : gmap (string * Z) F)
    (ordered_dates : list date) (ws_req : sheet F) : res (sheet F) :=
  match find_component_header ws_req with
  | None =>
      Raise (ValueError
               "Cannot find 'Component' header in RM TOTAL REQUIREMENT sheet")
  | Some header_row =>
      let date_cols_idx :=
        py_range 2 (2 + Z.of_nat (length ordered_dates)) in
      foldM (reconcile_row need_lookup ordered_dates date_cols_idx)
            ws_req
            (py_range (header_row + 1) (max_row ws_req + 1))
  end.

(** *** Step 6: shortages from the coverage sheet *)

(** [next(r for r in range(1, max_row + 1) if cell(r, 1).value == "APN")]:
    no default, so an exhausted generator raises [StopIteration]. *)
Definition find_apn_header (ws : sheet F) : res Z :=
  match head (filter (fun r => value_eq_str (cell_value ws r 1) "APN" = true)
                     (py_range 1 (max_row ws + 1))) with
  | Some r => Ok r
  | None => Raise StopIteration
  end.

(** [(ws_cov.max_column - 3) // 3] *)
Definition n_days_of (ws : sheet F) : Z := (max_column ws - 3) `div` 3.

(** [[4 + n_days + i for i in range(n_days)]] *)
Definition idx_transit_of (n_days : Z) : list Z :=
  (fun i => 4 + n_days + i) <$> py_range 0 n_days.

(** [if i: prev += safe_float(row[idx_transit[i - 1] - 1])] *)
Definition add_transit (idx_transit : list Z) (row : list (value F))
    (i : Z) (prev : F) : res F :=
  if i =? 0 then Ok prev
  else
    t ← py_index idx_transit (i - 1);
    v ← py_index row (t - 1);
    Ok (fadd prev (safe_float v)).

(** The loop over [enumerate(ordered_dates)] from index [i] on, with the
    running balance [prev]; returns the shortages it appends. *)
Fixpoint simulate_days (need_lookup : gmap (string * Z) F)
    (fg_map : gmap (string * Z) (gset string))
    (idx_transit : list Z) (row : list (value F)) (comp : string)
    (i : Z) (days : list date) (prev : F) : res (list shortage) :=
  match days with
  | [] => Ok []
  | day :: days' =>
      prev ← add_transit idx_transit row i prev;
      let need := default f0 (need_lookup !! (comp, day)) in
      let balance := fsub prev need in
      let found :=
        if flt balance f0
        then [(day, comp, render_fgs (fg_lookup fg_map (comp, day)))]
        else [] in
      rest ← simulate_days need_lookup fg_map idx_transit row comp
                           (i + 1) days' balance;
      Ok (found ++ rest)%list
  end.

(** One iteration of the loop over the coverage rows. *)
Definition simulate_row (need_lookup : gmap (string * Z) F)
    (fg_map : gmap (string * Z) (gset string))
    (idx_transit : list Z) (ordered_dates : list date)
    (row : list (value F)) : res (list shortage) :=
  c ← py_index row 0;
  let comp := clean_comp c in
  if decide (comp = "") then Ok []
  else
    s ← py_index row 1;
    w ← py_index row 2;
    let stock := safe_float s in
    let wip := safe_float w in
    simulate_days need_lookup fg_map idx_transit row comp
                  0 ordered_dates (fadd stock wip).

Definition coverage_shortages (need_lookup : gmap (string * Z) F)
    (fg_map : gmap (string * Z) (gset string))
    (ordered_dates : list date) (ws_cov : sheet F) : res (list shortage) :=
  hdr ← find_apn_header ws_cov;
  let n_days := n_days_of ws_cov in
  let idx_transit := idx_transit_of n_days in
  found ← mapM (simulate_row need_lookup fg_map idx_transit ordered_dates)
               (iter_rows ws_cov (hdr + 1) (max_row ws_cov)
                          (3 + 3 * n_days));
  Ok (concat found).

(** [short_df.sort_values(["Date", "Component"])] *)
Definition shortage_le (a b : shortage) : Prop :=
  a.1.1 < b.1.1 ∨ (a.1.1 = b.1.1 ∧ String.le a.1.2 b.1.2).

#[export] Instance shortage_le_dec : RelDecision shortage_le.
Proof. intros a b. unfold shortage_le. apply _. Defined.

Definition sort_shortages (l : list shortage) : list shortage :=
  merge_sort shortage_le l.

(** *** The whole run

    The plan table is taken after header detection: its date columns and
    its data rows.  The result is the shortage table and the updated
    requirement sheet.  Writing the sheets back to the workbook and the
    highlighting of the plan sheet (step 7), which follow the simulation,
    are not modelled. *)
Definition process_workbook (bom : list (BOMEntry F))
    (date_cols : list date) (plan_data : list (PlanLine F))
    (ws_req ws_cov : sheet F) : res (list shortage * sheet F) :=
  match date_cols with
  | [] => Raise (ValueError "No date columns detected in plan sheet.")
  | _ =>
      let plan_long := dropna (melt date_cols plan_data) in
      let merged := merge bom plan_long in
      let tot_need_df := groupby_sum merged in
      let ordered_dates := date_cols in
      let need_lookup := build_need_lookup tot_need_df in
      ws_req' ← reconcile need_lookup ordered_dates ws_req;
      let fg_map := build_fg_map merged in
      shortages ← coverage_shortages need_lookup fg_map ordered_dates ws_cov;
      Ok (sort_shortages shortages, ws_req')
  end.
End Pipeline.

(** ** The integer instance

    Whole quantities: binary64 represents them exactly up to 2^53, and the
    model computes on them.  [float()] accepts an optionally signed run of
    digits surrounded by whitespace. *)

Fixpoint digits_value (s : string) (acc : Z) : option Z :=
  match s with
  | EmptyString => Some acc
  | String c s' =>
      match Ascii.is_nat c with
      | Some d => digits_value s' (10 * acc + Z.of_nat d)
      | None => None
      end
  end.

Definition unsigned_of_string (s : string) : option Z :=
  match s with
  | EmptyString => None
  | _ => digits_value s 0
  end.

Definition int_of_string (s : string) : option Z :=
  match strip s with
  | String "-" s' => Z.opp <$> unsigned_of_string s'
  | String "+" s' => unsigned_of_string s'
  | s' => unsigned_of_string s'
  end.

#[export] Instance Z_PyFloat : PyFloat Z := {|
  f0 := 0;
  fadd := Z.add;
  fsub := Z.sub;
  fmul := Z.mul;
  flt := Z.ltb;
  float_of_string := int_of_string;
  float_str := pretty;
|}.

(** A worksheet from its rows, top to bottom, cells left to right. *)
Definition row_cells {F} (r : Z) (row : list (value F))
  : list (Z * Z * value F) :=
  (fun '(c, v) => (r, c, v)) <$> enumerate_from 1 row.

Definition sheet_of_rows {F} (rows : list (list (value F))) : sheet F :=
  {| max_row := Z.of_nat (length rows);
     max_column := foldr Z.max 0 ((fun row => Z.of_nat (length row)) <$> rows);
     cells := list_to_map
                ('(r, row) ← enumerate_from 1 rows; row_cells r row) |}.

(** ** Header detection in the plan preview, and step 7 *)

(** [s.split(sep)] for a one-character separator. *)
Fixpoint split_char (sep : ascii) (s : string) : list string :=
  match s with
  | EmptyString => [EmptyString]
  | String c s' =>
      if decide (c = sep) then EmptyString :: split_char sep s'
      else match split_char sep s' with
           | w :: ws => String c w :: ws
           | [] => [String c EmptyString]
           end
  end.

(** The keywords [detect_header_row] falls back to. *)
Definition default_key_words : gset string := {[ "Delphi PN"; "Material" ]}.

Section PlanSheet.
Context `{PyFloat F}.

(** One element of [row.fillna("").astype(str).str.strip()]. *)
Definition preview_cell (v : value F) : string :=
  strip (match v with
         | VNone => ""
         | _ => py_str v
         end).

(** The test of the loop body of [detect_header_row]. *)
Definition row_has_key_word (key_words : gset string) (row : list (value F))
  : Prop :=
  key_words ∩ list_to_set (preview_cell <$> row) ≠ ∅.

(** The loop of [detect_header_row] over the rows from index [i] on. *)
Fixpoint detect_from (key_words : gset string) (i : Z)
    (rows : list (list (value F))) : option Z :=
  match rows with
  | [] => None
  | row :: rows' =>
      if decide (row_has_key_word key_words row) then Some i
      else detect_from key_words (i + 1) rows'
  end.

(** [detect_header_row(df_preview, key_words)]: [key_words or {...}]
    replaces a missing or empty set by the default. *)
Definition detect_header_row (df_preview : list (list (value F)))
    (key_words : option (gset string)) : option Z :=
  let key_words :=
    match key_words with
    | Some k => if decide (k = ∅) then default_key_words else k
    | None => default_key_words
    end in
  detect_from key_words 0 df_preview.

(** *** Step 7: highlighting the plan sheet

    [to_date val] stands for [pd.to_datetime(val, errors="raise").date()],
    [None] when it raises; it belongs to pandas.  The fills are the only
    effect of the step, so its result is the set of cells filled red. *)
Section Highlight.
Variable to_date : value F -> option date.

(** One iteration of the loop over the header cells: the state is
    [(fg_col_idx, date_to_col)]. *)
Definition scan_header_cell (ws_plan : sheet F) (header_row_excel : Z)
    (st : option Z * gmap Z Z) (col_idx : Z) : option Z * gmap Z Z :=
  let val := cell_value ws_plan header_row_excel col_idx in
  let fg_col_idx :=
    match val with
    | VStr s => if decide (lower (strip s) = "delphi pn") then Some col_idx
                else st.1
    | _ => st.1
    end in
  let date_to_col :=
    match to_date val with
    | Some dt => <[dt := col_idx]> st.2
    | None => st.2
    end in
  (fg_col_idx, date_to_col).

(** [for cell in ws_plan[header_row_excel]: ...] *)
Definition scan_header (ws_plan : sheet F) (header_row_excel : Z)
  : option Z * gmap Z Z :=
  foldl (scan_header_cell ws_plan header_row_excel) (None, ∅)
        (py_range 1 (max_column ws_plan + 1)).

(** The set comprehension [short_fg_date]. *)
Definition short_fg_date (short_df : list shortage) : gset (string * Z) :=
  list_to_set
    (sh ← short_df;
     (fun fg => (strip fg, sh.1.1)) <$> split_char ","%char sh.2).

(** The cells one plan row gets filled. *)
Definition highlight_row (ws_plan : sheet F) (fg_col_idx : Z)
    (date_to_col : gmap Z Z) (short : gset (string * Z)) (r : Z)
  : gset (Z * Z) :=
  match cell_value ws_plan r fg_col_idx with
  | VNone => ∅
  | fg_val =>
      let fg_clean := strip (py_str fg_val) in
      list_to_set
        (omap (fun '(d, col_idx) =>
                 if decide ((fg_clean, d) ∈ short) then
                   let qty := safe_float (cell_value ws_plan r col_idx) in
                   if fgt qty f0 then Some (r, col_idx) else None
                 else None)
              (map_to_list date_to_col))
  end.

(** Step 7 of [process_workbook], [hdr_row] being the index found by
    [detect_header_row]. *)
Definition highlight_shortages (ws_plan : sheet F) (hdr_row : Z)
    (short_df : list shortage) : res (gset (Z * Z)) :=
  let header_row_excel := hdr_row + 1 in
  let '(fg_col_idx, date_to_col) := scan_header ws_plan header_row_excel in
  match fg_col_idx with
  | None =>
      Raise (ValueError
               "Could not find 'Delphi PN' column in PLAN sheet header")
  | Some fg_col_idx =>
      let short := short_fg_date short_df in
      Ok (⋃ (highlight_row ws_plan fg_col_idx date_to_col short
               <$> py_range (header_row_excel + 1) (max_row ws_plan + 1)))
  end.
End Highlight.
End PlanSheet.

(** ** Reference definitions

    The quantities the specification speaks of, written from its words, to
    be compared with what the pipeline computes. *)

Section Reference.
Context `{PyFloat F}.

(** The balance recurrence: [stock + wip] to start with; on every day but
    the first the intransit figure of the previous position is added; then
    the day's need is subtracted, and the result is carried forward. *)
Fixpoint balance_at (stock wip : F) (intransit need : nat -> F) (i : nat) : F :=
  match i with
  | O => fsub (fadd stock wip) (need O)
  | S j =>
      fsub (fadd (balance_at stock wip intransit need j) (intransit j))
           (need (S j))
  end.

(** The need of a component on the [i]-th date, [0.0] when the lookup has
    no such key. *)
Definition day_need (need_lookup : gmap (string * Z) F) (comp : string)
    (ordered_dates : list date) (i : nat) : F :=
  match ordered_dates !! i with
  | Some day => default f0 (need_lookup !! (comp, day))
  | None => f0
  end.

(** The balance of coverage row [r] after day [i], reading stock and WIP in
    columns 2 and 3 and the [j]-th intransit figure in column
    [4 + n_days + j]. *)
Definition row_balance (need_lookup : gmap (string * Z) F)
    (ordered_dates : list date) (ws : sheet F) (r : Z) (i : nat) : F :=
  balance_at (safe_float (cell_value ws r 2))
             (safe_float (cell_value ws r 3))
             (fun j => safe_float
                         (cell_value ws r (4 + n_days_of ws + Z.of_nat j)))
             (day_need need_lookup (clean_comp (cell_value ws r 1))
                       ordered_dates)
             i.

(** The shortages expected of coverage row [r]: none for a row with a blank
    label, otherwise one for each day whose balance is negative. *)
Definition expected_row_shortages (need_lookup : gmap (string * Z) F)
    (fg_map : gmap (string * Z) (gset string))
    (ordered_dates : list date) (ws : sheet F) (r : Z) : list shortage :=
  let comp := clean_comp (cell_value ws r 1) in
  if decide (comp = "") then []
  else
    concat (imap (fun i day =>
                    if flt (row_balance need_lookup ordered_dates ws r i) f0
                    then [(day, comp,
                           render_fgs (fg_lookup fg_map (comp, day)))]
                    else [])
                 ordered_dates).
(** The finished goods behind a need: those with a BOM entry for the
    component (compared after normalisation) and a plan cell on the date
    that is not missing. *)
Definition causes (bom : list (BOMEntry F)) (melted : list (MeltRow F))
    (comp : string) (d : date) (fg : string) : Prop :=
  ∃ b r, b ∈ bom ∧ r ∈ melted
         ∧ bom_FG b = fg ∧ melt_FG r = fg
         ∧ clean_comp (VStr (bom_Component b) : value F) = comp
         ∧ melt_Date r = d
         ∧ is_Some (melt_QtyPlanned r).

(** The same with a planned quantity that is moreover not zero. *)
Definition nonzero_causes (bom : list (BOMEntry F)) (melted : list (MeltRow F))
    (comp : string) (d : date) (fg : string) : Prop :=
  ∃ b r q, b ∈ bom ∧ r ∈ melted
           ∧ bom_FG b = fg ∧ melt_FG r = fg
           ∧ clean_comp (VStr (bom_Component b) : value F) = comp
           ∧ melt_Date r = d
           ∧ melt_QtyPlanned r = Some q ∧ q ≠ f0.
(** The terms of the need of component [c] on date [d]: quantity per unit
    times planned quantity, over the BOM entries of [c] and, for each, the
    plan rows of its finished good on [d], in table order. *)
Definition need_terms (bom : list (BOMEntry F)) (plan_long : list (PlanRow F))
    (c : string) (d : date) : list F :=
  b ← filter (fun b => bom_Component b = c) bom;
  (fun p => fmul (bom_CompQty b) (plan_QtyPlanned p))
    <$> filter (fun p => plan_FG p = bom_FG b ∧ plan_Date p = d) plan_long.

(** [totalNeed(c, d)]: the sum of these terms. *)
Definition need_sigma (bom : list (BOMEntry F)) (plan_long : list (PlanRow F))
    (c : string) (d : date) : F :=
  fsum (need_terms bom plan_long c d).
(** The max-overwrite rule on one ledger cell holding [v]: with a need for
    (component, day) the cell becomes that need when it exceeds the cell's
    numeric value; otherwise it keeps [v]. *)
Definition cell_update (need_lookup : gmap (string * Z) F)
    (comp : string) (day : date) (v : value F) : value F :=
  match need_lookup !! (comp, day) with
  | Some new_val =>
      if fgt new_val (safe_float v) then VNum new_val else v
  | None => v
  end.

(** The cells the sync may write: below the header row, in the date columns
    2 .. 1 + N, in rows with a label that is not blank. *)
Definition in_footprint (ordered_dates : list date) (header_row : Z)
    (ws : sheet F) (r c : Z) : Prop :=
  header_row < r ≤ max_row ws
  ∧ 2 ≤ c < 2 + Z.of_nat (length ordered_dates)
  ∧ clean_comp (cell_value ws r 1) ≠ "".

(** The value of cell (r, c) after the sync, the date of column [c] being
    the one at position [c - 2]. *)
Definition reconciled_value (need_lookup : gmap (string * Z) F)
    (ordered_dates : list date) (header_row : Z) (ws : sheet F) (r c : Z)
  : value F :=
  if decide (in_footprint ordered_dates header_row ws r c) then
    match ordered_dates !! Z.to_nat (c - 2) with
    | Some day =>
        cell_update need_lookup (clean_comp (cell_value ws r 1)) day
                    (cell_value ws r c)
    | None => cell_value ws r c
    end
  else cell_value ws r c.
(** A string made of whitespace only. *)
Fixpoint all_space (s : string) : bool :=
  match s with
  | EmptyString => true
  | String c s' => py_isspace c && all_space s'
  end.

(** What [detect_header_row] promises of its result [o] for the keywords
    [kw]: the index of the first row of the preview having a cell that,
    trimmed (a missing cell reading as the empty string), is a keyword; or
    nothing when no row has one. *)
Definition first_header_row (kw : gset string)
    (df_preview : list (list (value F))) (o : option Z) : Prop :=
  match o with
  | Some i =>
      0 ≤ i
      ∧ (∃ row, df_preview !! Z.to_nat i = Some row
                ∧ ∃ v, v ∈ row ∧ preview_cell v ∈ kw)
      ∧ ∀ (j : nat) row, (j < Z.to_nat i)%nat →
                         df_preview !! j = Some row →
                         ∀ v, v ∈ row → preview_cell v ∉ kw
  | None => ∀ row v, row ∈ df_preview → v ∈ row → preview_cell v ∉ kw
  end.
End Reference.

(** ** Sample workbooks

    Small workbooks over the integer instance, used to run the pipeline. *)

Module Sample.
Definition day1 : Z := 739000.
Definition day2 : Z := 739001.

(** The example of the specification: FG1 needs two C1 per unit and five
    units are planned on day 1. *)
Definition bom : list (BOMEntry Z) :=
  [ {| bom_FG := "FG1"; bom_Component := "C1"; bom_CompQty := 2 |} ].

Definition plan_data : list (PlanLine Z) :=
  [ {| line_FG := "FG1"; line_cells := [Some 5] |} ].

Definition plan_long : list (PlanRow Z) := dropna (melt [day1] plan_data).

Definition ws_req : sheet Z :=
  sheet_of_rows
    [ [VStr "Component"; VStr "day 1"];
      [VStr "C1"; VNum 15];
      [VStr " c1"; VNum 3];
      [VStr "C2"; VNum 4] ].

Definition ws_cov : sheet Z :=
  sheet_of_rows
    [ [VStr "APN"; VStr "Stock"; VStr "WIP";
       VStr "need"; VStr "intransit"; VStr "balance"];
      [VStr "C1"; VNum 8; VNum 0; VNone; VNum 0; VNone] ].

(** A requirement sheet whose second row has an empty label cell, and a BOM
    with a component spelled "none". *)
Definition bom_none : list (BOMEntry Z) :=
  [ {| bom_FG := "FG1"; bom_Component := "none"; bom_CompQty := 1 |} ].

Definition ws_req_empty_label : sheet Z :=
  sheet_of_rows
    [ [VStr "Component"; VStr "day 1"];
      [VNone; VNum 1] ].

(** A coverage sheet without any "APN" cell in its first column. *)
Definition ws_cov_no_apn : sheet Z :=
  sheet_of_rows
    [ [VStr "Apn"; VStr "Stock"; VStr "WIP";
       VStr "need"; VStr "intransit"; VStr "balance"];
      [VStr "C1"; VNum 8; VNum 0; VNone; VNum 0; VNone] ].

(** A requirement sheet without a "Component" header. *)
Definition ws_req_no_header : sheet Z :=
  sheet_of_rows [ [VStr "Part"; VStr "day 1"]; [VStr "C1"; VNum 15] ].
(** A coverage sheet with a whitespace label and a negative stock. *)
Definition ws_cov_blank : sheet Z :=
  sheet_of_rows
    [ [VStr "APN"; VStr "Stock"; VStr "WIP";
       VStr "need"; VStr "intransit"; VStr "balance"];
      [VStr "  "; VNum (-1); VNum 0; VNone; VNum 0; VNone] ].

(** Three plan dates and a coverage sheet of 3 + 3 + 3 columns: three need
    columns followed by three intransit columns. *)
Definition ws_cov_two_blocks : sheet Z :=
  sheet_of_rows
    [ [VStr "APN"; VStr "Stock"; VStr "WIP";
       VStr "need 1"; VStr "need 2"; VStr "need 3";
       VStr "intransit 1"; VStr "intransit 2"; VStr "intransit 3"];
      [VStr "C1"; VNum 10; VNum 0;
       VNum 5; VNum 6; VNum 7;
       VNum 1; VNum 2; VNum 3] ].

(** Three plan dates and a coverage sheet of 3 + 3 * 3 columns. *)
Definition ws_cov_three_blocks : sheet Z :=
  sheet_of_rows
    [ [VStr "APN"; VStr "Stock"; VStr "WIP";
       VStr "need 1"; VStr "need 2"; VStr "need 3";
       VStr "intransit 1"; VStr "intransit 2"; VStr "intransit 3";
       VStr "balance 1"; VStr "balance 2"; VStr "balance 3"];
      [VStr "C1"; VNum 10; VNum 0;
       VNum 5; VNum 6; VNum 7;
       VNum 1; VNum 2; VNum 3;
       VNone; VNone; VNone] ].

(** FG1 planned with a quantity of zero, and a coverage row for C1 that
    starts below zero. *)
Definition plan_data_zero : list (PlanLine Z) :=
  [ {| line_FG := "FG1"; line_cells := [Some 0] |} ].

Definition ws_cov_negative : sheet Z :=
  sheet_of_rows
    [ [VStr "APN"; VStr "Stock"; VStr "WIP";
       VStr "need"; VStr "intransit"; VStr "balance"];
      [VStr "C1"; VNum (-1); VNum 0; VNone; VNum 0; VNone] ].
(** Two more dates, and a coverage sheet of 3 + 4 + 4 columns for four plan
    dates: four need columns followed by four intransit columns. *)
Definition day3 : Z := 739002.
Definition day4 : Z := 739003.

Definition ws_cov_four_dates : sheet Z :=
  sheet_of_rows
    [ [VStr "APN"; VStr "Stock"; VStr "WIP";
       VStr "need 1"; VStr "need 2"; VStr "need 3"; VStr "need 4";
       VStr "intransit 1"; VStr "intransit 2"; VStr "intransit 3";
       VStr "intransit 4"];
      [VStr "C1"; VNum 10; VNum 0;
       VNum 5; VNum 6; VNum 7; VNum 8;
       VNum 1; VNum 2; VNum 3; VNum 4] ].
(** A plan sheet with its header in the first row, and a stand-in for the
    date parser that reads the two header texts used here. *)
Definition to_date (v : value Z) : option Z :=
  match v with
  | VOther repr =>
      if decide (repr = "2024-05-01") then Some day1
      else if decide (repr = "2024-05-02") then Some day2
      else None
  | _ => None
  end.

Definition ws_plan : sheet Z :=
  sheet_of_rows
    [ [VStr "Line"; VStr "Delphi PN";
       VOther "2024-05-01"; VOther "2024-05-02"];
      [VNum 1; VStr " FG1"; VNum 5; VNum 0];
      [VNum 2; VStr "FG2"; VNum 7; VNum 7] ].
End Sample.

(** * Properties *)

(** ** Normalisation utilities *)

Section HelperFacts.
Context `{PyFloat F}.




End HelperFacts.

(** ** Header detection *)

Section HeaderFacts.
Context `{PyFloat F}.

Lemma find_apn_header_absent (ws : sheet F) :
  (∀ r, 1 ≤ r ≤ max_row ws → value_eq_str (cell_value ws r 1) "APN" = false) →
  find_apn_header ws = Raise StopIteration.
Proof.
  intros Habs. unfold find_apn_header.
  destruct (head _) as [r|] eqn:Hhd; [|done].
  apply head_Some_elem_of, list_elem_of_filter in Hhd as [Hr Hin].
  unfold py_range in Hin. apply list_elem_of_fmap in Hin as (i & -> & Hi).
  apply elem_of_seq in Hi. rewrite Habs in Hr; [done|lia].
Qed.

Lemma find_apn_header_found (ws : sheet F) (r : Z) :
  find_apn_header ws = Ok r →
  1 ≤ r ≤ max_row ws ∧ cell_value ws r 1 = VStr "APN".
Proof.
  unfold find_apn_header.
  destruct (head _) as [r'|] eqn:Hhd; [|done].
  intros [= ->].
  apply head_Some_elem_of, list_elem_of_filter in Hhd as [Hr Hin].
  unfold py_range in Hin. apply list_elem_of_fmap in Hin as (i & -> & Hi).
  apply elem_of_seq in Hi. split; [lia|].
  destruct (cell_value ws _ 1) as [|s| |]; try done.
  simpl in Hr. by apply bool_decide_eq_true in Hr as ->.
Qed.

Lemma find_component_header_found (ws : sheet F) (r : Z) :
  find_component_header ws = Some r →
  1 ≤ r ≤ max_row ws
  ∧ lower (strip (py_str (cell_value ws r 1))) = "component".
Proof.
  unfold find_component_header. intros Hhd.
  apply head_Some_elem_of, list_elem_of_filter in Hhd as [Hr Hin].
  unfold py_range in Hin. apply list_elem_of_fmap in Hin as (i & -> & Hi).
  apply elem_of_seq in Hi. split; [lia|done].
Qed.
End HeaderFacts.

(** C7 (coverage header failure).  On a workbook whose coverage sheet has no
    "APN" cell in its first column the run aborts with a bare
    [StopIteration], whose message is the empty string; the missing
    "Component" header of the requirement sheet, by contrast, aborts with a
    [ValueError] that names the sheet. *)
Theorem coverage_header_missing_is_stop_iteration :
  process_workbook Sample.bom [Sample.day1] Sample.plan_data
                   Sample.ws_req Sample.ws_cov_no_apn
  = Raise StopIteration
  ∧ exn_message StopIteration = Some ""
  ∧ process_workbook Sample.bom [Sample.day1] Sample.plan_data
                     Sample.ws_req_no_header Sample.ws_cov
    = Raise (ValueError
               "Cannot find 'Component' header in RM TOTAL REQUIREMENT sheet").
Proof. split; [|split]; by vm_compute. Qed.

(** ** Blank ledger rows *)

Section BlankRows.
Context `{PyFloat F}.

Lemma reconcile_row_blank need_lookup ordered_dates date_cols_idx
    (ws : sheet F) (r : Z) :
  clean_comp (cell_value ws r 1) = "" →
  reconcile_row need_lookup ordered_dates date_cols_idx ws r = Ok ws.
Proof. intros Hc. unfold reconcile_row. by rewrite decide_True. Qed.

Lemma clean_comp_none : clean_comp (VNone : value F) = "NONE".
Proof. reflexivity. Qed.
End BlankRows.

(** C6 (blank-row skipping).  A ledger row whose label cell is empty is not
    skipped: its label normalises to "NONE", and with a BOM component
    spelled "none" the row's date cell is overwritten from 1 to 5. *)
Theorem empty_label_row_is_overwritten :
  cell_value Sample.ws_req_empty_label 2 1 = VNone
  ∧ cell_value Sample.ws_req_empty_label 2 2 = VNum 1
  ∧ match reconcile
            (build_need_lookup (explode Sample.bom_none Sample.plan_long))
            [Sample.day1] Sample.ws_req_empty_label with
    | Ok ws' => cell_value ws' 2 2
    | Raise _ => VNone
    end = VNum 5.
Proof. split; [|split]; by vm_compute. Qed.
(** ** Ranges and indexing *)

Lemma py_range_lookup (lo hi : Z) (i : nat) :
  (i < Z.to_nat (hi - lo))%nat →
  py_range lo hi !! i = Some (lo + Z.of_nat i).
Proof.
  intros Hi. unfold py_range.
  rewrite list_lookup_fmap, lookup_seq_lt by done. done.
Qed.

Lemma elem_of_py_range (lo hi x : Z) : x ∈ py_range lo hi ↔ lo ≤ x < hi.
Proof.
  unfold py_range. rewrite list_elem_of_fmap. split.
  - intros (i & -> & Hi). apply elem_of_seq in Hi. lia.
  - intros Hx. exists (Z.to_nat (x - lo)). split; [lia|].
    apply elem_of_seq. lia.
Qed.

Lemma py_range_cons (lo hi : Z) :
  lo < hi → py_range lo hi = lo :: py_range (lo + 1) hi.
Proof.
  intros Hlt. unfold py_range.
  replace (Z.to_nat (hi - lo)) with (S (Z.to_nat (hi - (lo + 1)))) by lia.
  cbn [seq fmap list_fmap]. f_equal; [lia|].
  rewrite <- fmap_S_seq, <- list_fmap_compose.
  apply list_fmap_ext. intros _ i _. simpl. lia.
Qed.

Lemma py_range_nil (lo hi : Z) : hi ≤ lo → py_range lo hi = [].
Proof. intros Hle. unfold py_range. by replace (Z.to_nat (hi - lo)) with O by lia. Qed.

Lemma NoDup_py_range (lo hi : Z) : NoDup (py_range lo hi).
Proof.
  unfold py_range. apply NoDup_fmap_2; [|apply NoDup_seq].
  intros i j Hij. lia.
Qed.

Lemma py_index_lookup {A} (l : list A) (i : nat) (a : A) :
  l !! i = Some a → py_index l (Z.of_nat i) = Ok a.
Proof.
  intros Hl. unfold py_index.
  assert ((Z.of_nat i <? 0) = false) as -> by (apply Z.ltb_ge; lia).
  assert ((Z.of_nat i <? 0) = false) as -> by (apply Z.ltb_ge; lia).
  by rewrite Nat2Z.id, Hl.
Qed.

Lemma py_index_fmap_range {A} (f : Z → A) (lo hi i : Z) :
  0 ≤ i < hi - lo →
  py_index (f <$> py_range lo hi) i = Ok (f (lo + i)).
Proof.
  intros Hi. replace i with (Z.of_nat (Z.to_nat i)) at 1 by lia.
  apply py_index_lookup.
  rewrite list_lookup_fmap, py_range_lookup by lia.
  simpl. do 2 f_equal. lia.
Qed.

(** ** The coverage simulator *)

Section SimulatorFacts.
Context `{PyFloat F}.
Implicit Types (ws : sheet F) (need_lookup : gmap (string * Z) F).
Implicit Types (fg_map : gmap (string * Z) (gset string)).

Lemma idx_transit_index (n j : Z) :
  0 ≤ j < n → py_index (idx_transit_of n) j = Ok (4 + n + j).
Proof.
  intros Hj. unfold idx_transit_of.
  rewrite py_index_fmap_range by lia. f_equal.
Qed.

Lemma row_values_index ws (max_col r c : Z) :
  1 ≤ c ≤ max_col →
  py_index (row_values ws max_col r) (c - 1) = Ok (cell_value ws r c).
Proof.
  intros Hc. unfold row_values.
  rewrite py_index_fmap_range by lia. do 2 f_equal. lia.
Qed.

Lemma add_transit_later ws (n max_col r i : Z) (prev : F) :
  0 < i ≤ n → 3 + n + i ≤ max_col →
  add_transit (idx_transit_of n) (row_values ws max_col r) i prev
  = Ok (fadd prev (safe_float (cell_value ws r (3 + n + i)))).
Proof.
  intros Hi Hmc. unfold add_transit.
  assert ((i =? 0) = false) as -> by (apply Z.eqb_neq; lia).
  rewrite idx_transit_index by lia. cbn [mbind res_bind].
  replace (4 + n + (i - 1) - 1) with (3 + n + i - 1) by lia.
  rewrite row_values_index by lia. done.
Qed.

Lemma simulate_days_balance need_lookup fg_map ws (r : Z)
    (ordered_dates : list date) (comp : string) :
  comp = clean_comp (cell_value ws r 1) →
  0 ≤ n_days_of ws →
  ∀ (days : list date) (k : nat) (prev : F),
    drop k ordered_dates = days →
    Z.of_nat (k + length days) ≤ n_days_of ws + 1 →
    prev = match k with
           | O => fadd (safe_float (cell_value ws r 2))
                       (safe_float (cell_value ws r 3))
           | S j => row_balance need_lookup ordered_dates ws r j
           end →
    simulate_days need_lookup fg_map (idx_transit_of (n_days_of ws))
                  (row_values ws (3 + 3 * n_days_of ws) r) comp (Z.of_nat k) days prev
    = Ok (concat
            (imap (fun j day =>
                     if flt (row_balance need_lookup ordered_dates ws r (k + j)) f0
                     then [(day, comp,
                            render_fgs (fg_lookup fg_map (comp, day)))]
                     else [])
                  days)).
Proof.
  intros Hcomp Hn days.
  induction days as [|day days IH]; intros k prev Hdrop Hlen Hprev; [done|].
  assert (ordered_dates !! k = Some day) as Hday.
  { rewrite <- (Nat.add_0_r k), <- lookup_drop, Hdrop. done. }
  assert (drop (S k) ordered_dates = days) as Hdrop'.
  { rewrite (drop_S _ _ _ Hday) in Hdrop. by injection Hdrop. }
  cbn [simulate_days length] in *.
  assert (add_transit (idx_transit_of (n_days_of ws)) (row_values ws (3 + 3 * n_days_of ws) r)
                      (Z.of_nat k) prev
          = Ok (match k with
                | O => prev
                | S j => fadd prev (safe_float
                                      (cell_value ws r (4 + n_days_of ws + Z.of_nat j)))
                end)) as ->.
  { destruct k as [|j]; [done|].
    rewrite add_transit_later by lia. do 4 f_equal. lia. }
  cbn [mbind res_bind].
  assert (fsub (match k with
                | O => prev
                | S j => fadd prev (safe_float
                                      (cell_value ws r (4 + n_days_of ws + Z.of_nat j)))
                end)
               (default f0 (need_lookup !! (comp, day)))
          = row_balance need_lookup ordered_dates ws r k) as ->.
  { subst prev comp. unfold row_balance.
    destruct k as [|j]; cbn [balance_at]; unfold day_need; by rewrite Hday. }
  replace (Z.of_nat k + 1) with (Z.of_nat (S k)) by lia.
  rewrite (IH (S k) _ Hdrop') by (done || lia).
  cbn [mbind res_bind imap concat]. rewrite Nat.add_0_r. do 3 f_equal.
  apply imap_ext. intros j d _. simpl. by rewrite Nat.add_succ_r.
Qed.

Lemma simulate_row_expected need_lookup fg_map ws (r : Z)
    (ordered_dates : list date) :
  0 ≤ n_days_of ws →
  Z.of_nat (length ordered_dates) ≤ n_days_of ws + 1 →
  simulate_row need_lookup fg_map (idx_transit_of (n_days_of ws))
               ordered_dates (row_values ws (3 + 3 * n_days_of ws) r)
  = Ok (expected_row_shortages need_lookup fg_map ordered_dates ws r).
Proof.
  intros Hn Hlen. unfold simulate_row, expected_row_shortages.
  replace 0 with (1 - 1) at 1 by done. rewrite row_values_index by lia.
  cbn [mbind res_bind]. case_decide; [done|].
  replace 1 with (2 - 1) at 1 by done. rewrite row_values_index by lia.
  cbn [mbind res_bind].
  replace 2 with (3 - 1) at 1 by done. rewrite row_values_index by lia.
  cbn [mbind res_bind].
  by apply (simulate_days_balance _ _ _ _ _ _ eq_refl Hn ordered_dates O).
Qed.

Lemma mapM_res_fmap {A B C} (f : B → res C) (h : A → B) (g : A → C)
    (l : list A) :
  (∀ x, x ∈ l → f (h x) = Ok (g x)) → mapM f (h <$> l) = Ok (g <$> l).
Proof.
  induction l as [|x l IH]; intros Hf; [done|].
  rewrite !fmap_cons. cbn [mapM]. rewrite Hf by apply list_elem_of_here.
  cbn [mbind res_bind]. rewrite IH; [done|].
  intros y Hy. apply Hf. by apply list_elem_of_further.
Qed.

Lemma coverage_shortages_expected need_lookup fg_map
    (ordered_dates : list date) ws (hdr : Z) :
  find_apn_header ws = Ok hdr →
  0 ≤ n_days_of ws →
  Z.of_nat (length ordered_dates) ≤ n_days_of ws + 1 →
  coverage_shortages need_lookup fg_map ordered_dates ws
  = Ok (concat (expected_row_shortages need_lookup fg_map ordered_dates ws
                  <$> py_range (hdr + 1) (max_row ws + 1))).
Proof.
  intros Hhdr Hn Hlen. unfold coverage_shortages. rewrite Hhdr.
  cbn [mbind res_bind]. unfold iter_rows.
  assert ((3 + 3 * n_days_of ws =? 0) = false) as -> by (apply Z.eqb_neq; lia).
  rewrite (mapM_res_fmap _ _
             (expected_row_shortages need_lookup fg_map ordered_dates ws));
    [done|].
  intros r _. by apply simulate_row_expected.
Qed.
End SimulatorFacts.

Lemma elem_of_concat {A} (x : A) (ls : list (list A)) :
  x ∈ concat ls ↔ ∃ l, x ∈ l ∧ l ∈ ls.
Proof.
  rewrite list_elem_of_In, in_concat. split.
  - intros (l & Hl & Hx). exists l. by rewrite !list_elem_of_In.
  - intros (l & Hx & Hl). exists l. by rewrite <- !list_elem_of_In.
Qed.

Section ShortageSoundness.
Context `{PyFloat F}.
Implicit Types (ws : sheet F) (need_lookup : gmap (string * Z) F).
Implicit Types (fg_map : gmap (string * Z) (gset string)).

Lemma expected_row_shortages_blank need_lookup fg_map
    (ordered_dates : list date) ws (r : Z) :
  clean_comp (cell_value ws r 1) = "" →
  expected_row_shortages need_lookup fg_map ordered_dates ws r = [].
Proof. intros Hc. unfold expected_row_shortages. by rewrite decide_True. Qed.

Lemma expected_row_shortages_iff need_lookup fg_map
    (ordered_dates : list date) ws (r : Z) (i : nat) (day : date) :
  clean_comp (cell_value ws r 1) ≠ "" →
  NoDup ordered_dates →
  ordered_dates !! i = Some day →
  (day, clean_comp (cell_value ws r 1),
   render_fgs (fg_lookup fg_map (clean_comp (cell_value ws r 1), day)))
    ∈ expected_row_shortages need_lookup fg_map ordered_dates ws r
  ↔ flt (row_balance need_lookup ordered_dates ws r i) f0 = true.
Proof.
  intros Hc Hnd Hi. unfold expected_row_shortages.
  rewrite decide_False by done.
  rewrite elem_of_concat. split.
  - intros (l & Hin & Hl).
    apply list_elem_of_lookup in Hl as [j Hj].
    rewrite list_lookup_imap in Hj.
    destruct (ordered_dates !! j) as [d|] eqn:Hd; [|done].
    simpl in Hj. injection Hj as <-.
    destruct (flt _ f0) eqn:Hlt; [|by apply elem_of_nil in Hin].
    apply list_elem_of_singleton in Hin. injection Hin as ->.
    by rewrite (NoDup_lookup _ _ _ _ Hnd Hi Hd).
  - intros Hlt. eexists. split; [apply list_elem_of_here|].
    apply list_elem_of_lookup. exists i.
    by rewrite list_lookup_imap, Hi; simpl; rewrite Hlt.
Qed.

(** C2 (shortage soundness and completeness), as amended.  On a coverage
    sheet with an "APN" header and enough columns for every intransit read,
    the simulator returns, row by row below the header, the expected
    shortages: none for a row whose normalised label is empty, and for any
    other row one shortage per day whose balance under the recurrence
    (stock + wip, plus the previous position's intransit from the second day
    on, minus the day's need or 0.0, carried forward) is strictly negative.
    With distinct dates, a row emits the shortage of day [i] if and only if
    that balance is negative. *)
Theorem shortage_iff_negative_balance need_lookup fg_map
    (ordered_dates : list date) ws (hdr : Z) :
  find_apn_header ws = Ok hdr →
  0 ≤ n_days_of ws →
  Z.of_nat (length ordered_dates) ≤ n_days_of ws + 1 →
  coverage_shortages need_lookup fg_map ordered_dates ws
  = Ok (concat (expected_row_shortages need_lookup fg_map ordered_dates ws
                  <$> py_range (hdr + 1) (max_row ws + 1)))
  ∧ (∀ r, clean_comp (cell_value ws r 1) = "" →
          expected_row_shortages need_lookup fg_map ordered_dates ws r = [])
  ∧ (∀ r i day,
       clean_comp (cell_value ws r 1) ≠ "" →
       NoDup ordered_dates →
       ordered_dates !! i = Some day →
       (day, clean_comp (cell_value ws r 1),
        render_fgs (fg_lookup fg_map (clean_comp (cell_value ws r 1), day)))
         ∈ expected_row_shortages need_lookup fg_map ordered_dates ws r
       ↔ flt (row_balance need_lookup ordered_dates ws r i) f0 = true).
Proof.
  intros Hhdr Hn Hlen. split; [by apply coverage_shortages_expected|].
  split.
  - intros r. apply expected_row_shortages_blank.
  - intros r i day. apply expected_row_shortages_iff.
Qed.

(** C5 (intransit column alignment), as amended.  On a coverage sheet of
    3 + 3N columns the simulator derives N days from the width, and on day
    [i], for 0 < i < N, adds to the balance the value of 1-based column
    3 + N + i of the row. *)
Theorem intransit_column_three_blocks ws (N r i : Z) (prev : F) :
  max_column ws = 3 + 3 * N →
  0 < i < N →
  n_days_of ws = N
  ∧ py_index (idx_transit_of (n_days_of ws)) (i - 1) = Ok (3 + N + i)
  ∧ add_transit (idx_transit_of (n_days_of ws))
                (row_values ws (3 + 3 * n_days_of ws) r) i prev
    = Ok (fadd prev (safe_float (cell_value ws r (3 + N + i)))).
Proof.
  intros Hcols Hi.
  assert (n_days_of ws = N) as ->.
  { unfold n_days_of. rewrite Hcols.
    replace (3 + 3 * N - 3) with (N * 3) by lia. by apply Z.div_mul. }
  split; [done|]. split.
  - rewrite idx_transit_index by lia. f_equal. lia.
  - by rewrite add_transit_later by lia.
Qed.
End ShortageSoundness.

Lemma shortage_iff_negative_balance_witness :
  coverage_shortages
    (build_need_lookup (explode Sample.bom Sample.plan_long))
    (build_fg_map (merge Sample.bom Sample.plan_long))
    [Sample.day1] Sample.ws_cov
  = Ok [(Sample.day1, "C1", "FG1")].
Proof.
  pose proof (shortage_iff_negative_balance
                (build_need_lookup (explode Sample.bom Sample.plan_long))
                (build_fg_map (merge Sample.bom Sample.plan_long))
                [Sample.day1] Sample.ws_cov 1) as Hs.
  destruct Hs as [Hs _]; [by vm_compute | by vm_compute | by vm_compute |].
  rewrite Hs. by vm_compute.
Defined.

(** C2 as stated fails on a row with a blank label: its balance on the
    first day is -1, and no shortage is emitted. *)
Lemma blank_coverage_row_emits_nothing :
  coverage_shortages (∅ : gmap (string * Z) Z) ∅ [Sample.day1]
                     Sample.ws_cov_blank = Ok []
  ∧ flt (row_balance (∅ : gmap (string * Z) Z) [Sample.day1]
                     Sample.ws_cov_blank 2 0) f0 = true.
Proof. split; by vm_compute. Qed.

Lemma intransit_column_three_blocks_witness :
  add_transit (idx_transit_of (n_days_of Sample.ws_cov_three_blocks))
              (row_values Sample.ws_cov_three_blocks
                          (3 + 3 * n_days_of Sample.ws_cov_three_blocks) 2)
              1 10
  = Ok (fadd 10 (safe_float (cell_value Sample.ws_cov_three_blocks 2 (3 + 3 + 1)))).
Proof.
  apply (intransit_column_three_blocks Sample.ws_cov_three_blocks 3 2 1 10);
    [reflexivity | lia].
Defined.

(** C5 as stated fails on the layout of 3 + N + N columns: with N = 3 the
    simulator derives two days from the nine columns and on day 1 adds
    column 6, the third need column (7), not column 7, the first intransit
    column (1). *)
Lemma intransit_column_two_blocks_misaligned :
  max_column Sample.ws_cov_two_blocks = 3 + 3 + 3
  ∧ add_transit (idx_transit_of (n_days_of Sample.ws_cov_two_blocks))
                (row_values Sample.ws_cov_two_blocks
                            (3 + 3 * n_days_of Sample.ws_cov_two_blocks) 2)
                1 10
    = Ok 17
  ∧ Ok (fadd 10 (safe_float (cell_value Sample.ws_cov_two_blocks 2 (3 + 3 + 1))))
    = Ok 11
  ∧ add_transit (idx_transit_of (n_days_of Sample.ws_cov_two_blocks))
                (row_values Sample.ws_cov_two_blocks
                            (3 + 3 * n_days_of Sample.ws_cov_two_blocks) 2)
                1 10
    ≠ Ok (fadd 10 (safe_float (cell_value Sample.ws_cov_two_blocks 2 (3 + 3 + 1)))).
Proof. repeat split; by vm_compute. Qed.

(** ** Finished goods behind a shortage *)

Section CauseFacts.
Context `{PyFloat F}.
Implicit Types (ws : sheet F) (need_lookup : gmap (string * Z) F).
Implicit Types (fg_map : gmap (string * Z) (gset string)).

Lemma elem_of_merge (bom : list (BOMEntry F)) (plan_long : list (PlanRow F))
    (m : MergedRow F) :
  m ∈ merge bom plan_long
  ↔ ∃ b p, b ∈ bom ∧ p ∈ plan_long ∧ plan_FG p = bom_FG b
           ∧ m = {| m_FG := bom_FG b;
                    m_Component := bom_Component b;
                    m_CompQty := bom_CompQty b;
                    m_Date := plan_Date p;
                    m_QtyPlanned := plan_QtyPlanned p;
                    m_TotalNeed := fmul (bom_CompQty b) (plan_QtyPlanned p) |}.
Proof.
  unfold merge. rewrite list_elem_of_bind. split.
  - intros (b & Hm & Hb). apply list_elem_of_fmap in Hm as (p & -> & Hp).
    apply list_elem_of_filter in Hp as [Hfg Hp]. by exists b, p.
  - intros (b & p & Hb & Hp & Hfg & ->). exists b. split; [|done].
    apply list_elem_of_fmap. exists p. split; [done|].
    by apply list_elem_of_filter.
Qed.

Lemma elem_of_dropna (melted : list (MeltRow F)) (p : PlanRow F) :
  p ∈ dropna melted
  ↔ ∃ r, r ∈ melted ∧ melt_QtyPlanned r = Some (plan_QtyPlanned p)
         ∧ plan_FG p = melt_FG r ∧ plan_Date p = melt_Date r.
Proof.
  unfold dropna. rewrite list_elem_of_omap. split.
  - intros (r & Hr & Hq). exists r.
    destruct (melt_QtyPlanned r) as [q|]; [|done].
    simpl in Hq. by injection Hq as <-.
  - intros (r & Hr & Hq & Hfg & Hd). exists r. split; [done|].
    rewrite Hq. simpl. destruct p; simpl in *. by subst.
Qed.

Lemma fg_map_foldl (merged : list (MergedRow F)) fg_map
    (key : string * Z) (fg : string) :
  fg ∈ fg_lookup
         (foldl (fun acc m =>
                   let k := (clean_comp (VStr (m_Component m) : value F),
                             m_Date m) in
                   <[k := default ∅ (acc !! k) ∪ {[m_FG m]}]> acc)
                fg_map merged)
         key
  ↔ fg ∈ fg_lookup fg_map key
    ∨ ∃ m, m ∈ merged
           ∧ (clean_comp (VStr (m_Component m) : value F), m_Date m) = key
           ∧ m_FG m = fg.
Proof.
  revert fg_map. induction merged as [|m merged IH]; intros fg_map.
  - simpl. split; [by left|]. intros [?|(m & Hm & _)]; [done|].
    by apply elem_of_nil in Hm.
  - cbn [foldl]. rewrite IH. unfold fg_lookup at 1.
    destruct (decide ((clean_comp (VStr (m_Component m) : value F), m_Date m)
                      = key)) as [Hk|Hk].
    + rewrite Hk, lookup_insert_eq. simpl. fold (fg_lookup fg_map key).
      rewrite elem_of_union, elem_of_singleton. split.
      * intros [[?| ->]|(m' & Hm' & Hk' & Hfg)]; [by left| |].
        -- right. exists m. split; [apply list_elem_of_here|done].
        -- right. exists m'. split; [by apply list_elem_of_further|done].
      * intros [?|(m' & Hm' & Hk' & Hfg)]; [by left; left|].
        apply elem_of_cons in Hm' as [-> |Hm'].
        -- left. by right.
        -- right. by exists m'.
    + rewrite lookup_insert_ne by done. fold (fg_lookup fg_map key). split.
      * intros [?|(m' & Hm' & Hk' & Hfg)]; [by left|].
        right. exists m'. split; [by apply list_elem_of_further|done].
      * intros [?|(m' & Hm' & Hk' & Hfg)]; [by left|].
        apply elem_of_cons in Hm' as [-> |Hm']; [done|].
        right. by exists m'.
Qed.

Lemma elem_of_build_fg_map (bom : list (BOMEntry F))
    (melted : list (MeltRow F)) (comp : string) (d : date) (fg : string) :
  fg ∈ fg_lookup (build_fg_map (merge bom (dropna melted))) (comp, d)
  ↔ causes bom melted comp d fg.
Proof.
  unfold build_fg_map. rewrite fg_map_foldl. unfold fg_lookup at 1.
  rewrite lookup_empty. simpl. unfold causes. split.
  - intros [Habs|(m & Hm & Hk & Hfg)]; [by apply not_elem_of_empty in Habs|].
    apply elem_of_merge in Hm as (b & p & Hb & Hp & Hjoin & ->).
    apply elem_of_dropna in Hp as (r & Hr & Hq & Hpfg & Hpd).
    simpl in *. injection Hk as Hc Hd.
    exists b, r. split_and!; try done; try congruence.
  - intros (b & r & Hb & Hr & Hbfg & Hrfg & Hc & Hd & [q Hq]). right.
    eexists. split.
    + apply elem_of_merge. exists b, {| plan_FG := melt_FG r;
                                        plan_Date := melt_Date r;
                                        plan_QtyPlanned := q |}.
      split; [done|]. split; [|split; [|done]].
      * apply elem_of_dropna. by exists r.
      * simpl. congruence.
    + simpl. by rewrite Hc, Hd.
Qed.

Lemma sorted_perm (s : gset string) : sorted s ≡ₚ elements s.
Proof. apply merge_sort_Permutation. Qed.

Lemma elem_of_sorted (s : gset string) (x : string) : x ∈ sorted s ↔ x ∈ s.
Proof. by rewrite sorted_perm, elem_of_elements. Qed.

Lemma sorted_nil (s : gset string) : sorted s = [] ↔ s = ∅.
Proof.
  split.
  - intros Hs. apply set_eq. intros x. rewrite <- elem_of_sorted, Hs.
    split; [by intros ?%elem_of_nil|by intros ?%not_elem_of_empty].
  - intros ->. apply Permutation_nil_r. by rewrite sorted_perm, elements_empty.
Qed.

Lemma render_fgs_empty : render_fgs ∅ = placeholder.
Proof.
  unfold render_fgs, fg_codes.
  by rewrite (proj2 (sorted_nil ∅) eq_refl).
Qed.

Lemma render_fgs_nonempty (s : gset string) :
  s ≠ ∅ → render_fgs s = join ", " (sorted s).
Proof.
  intros Hs. unfold render_fgs, fg_codes.
  destruct (sorted s) eqn:Hl; [|done].
  by apply sorted_nil in Hl.
Qed.

Lemma simulate_days_shape need_lookup fg_map (idx_transit : list Z)
    (row : list (value F)) (comp : string) (days : list date) :
  ∀ (i : Z) (prev : F) (l : list shortage),
    simulate_days need_lookup fg_map idx_transit row comp i days prev = Ok l →
    ∀ d c s, (d, c, s) ∈ l → s = render_fgs (fg_lookup fg_map (c, d)).
Proof.
  induction days as [|day days IH]; intros i prev l Hsim d c s Hin.
  - injection Hsim as <-. by apply elem_of_nil in Hin.
  - cbn [simulate_days] in Hsim.
    destruct (add_transit idx_transit row i prev) as [prev'|]; [|done].
    cbn [mbind res_bind] in Hsim.
    destruct (simulate_days _ _ _ _ _ (i + 1) days _) as [rest|] eqn:Hrest;
      [|done].
    cbn [mbind res_bind] in Hsim. injection Hsim as <-.
    apply elem_of_app in Hin as [Hin|Hin]; [|by eapply IH].
    destruct (flt _ f0); [|by apply elem_of_nil in Hin].
    apply list_elem_of_singleton in Hin. by injection Hin as -> -> ->.
Qed.

Lemma simulate_row_shape need_lookup fg_map (idx_transit : list Z)
    (ordered_dates : list date) (row : list (value F)) (l : list shortage) :
  simulate_row need_lookup fg_map idx_transit ordered_dates row = Ok l →
  ∀ d c s, (d, c, s) ∈ l → s = render_fgs (fg_lookup fg_map (c, d)).
Proof.
  unfold simulate_row. intros Hsim.
  destruct (py_index row 0) as [c0|]; [|done]. cbn [mbind res_bind] in Hsim.
  case_decide.
  { injection Hsim as <-. by intros d c s ?%elem_of_nil. }
  destruct (py_index row 1) as [s0|]; [|done]. cbn [mbind res_bind] in Hsim.
  destruct (py_index row 2) as [w0|]; [|done]. cbn [mbind res_bind] in Hsim.
  by eapply simulate_days_shape.
Qed.

Lemma mapM_res_Forall2 {A B} (f : A → res B) (l : list A) (k : list B) :
  mapM f l = Ok k → Forall2 (fun x y => f x = Ok y) l k.
Proof.
  revert k. induction l as [|x l IH]; intros k Hk.
  - injection Hk as <-. constructor.
  - cbn [mapM] in Hk. destruct (f x) as [y|] eqn:Hy; [|done].
    cbn [mbind res_bind] in Hk.
    destruct (mapM f l) as [k'|]; [|done].
    cbn [mbind res_bind] in Hk. injection Hk as <-.
    constructor; [done|by apply IH].
Qed.

Lemma coverage_shortages_shape need_lookup fg_map (ordered_dates : list date)
    ws (l : list shortage) :
  coverage_shortages need_lookup fg_map ordered_dates ws = Ok l →
  ∀ d c s, (d, c, s) ∈ l → s = render_fgs (fg_lookup fg_map (c, d)).
Proof.
  unfold coverage_shortages. intros Hcov d c s Hin.
  destruct (find_apn_header ws) as [hdr|]; [|done].
  cbn [mbind res_bind] in Hcov.
  destruct (mapM _ _) as [found|] eqn:Hfound; [|done].
  cbn [mbind res_bind] in Hcov. injection Hcov as <-.
  apply elem_of_concat in Hin as (lr & Hin & Hlr).
  apply mapM_res_Forall2 in Hfound.
  apply list_elem_of_lookup in Hlr as [j Hj].
  destruct (Forall2_lookup_r _ _ _ _ _ Hfound Hj) as (row & _ & Hrow).
  by eapply simulate_row_shape.
Qed.

(** C4 (cause completeness), as amended.  Every emitted shortage carries the
    rendering of the set that [fg_map] holds for its (component, date); that
    set is exactly the finished goods having a BOM entry for the component
    and a plan cell on the date that is not missing, a quantity of zero
    included; an empty set is rendered as the placeholder and a non-empty
    one as its sorted codes joined by commas. *)
Theorem causes_are_joined_finished_goods (bom : list (BOMEntry F))
    (melted : list (MeltRow F)) need_lookup (ordered_dates : list date)
    ws (l : list shortage) (d : date) (c s : string) :
  coverage_shortages need_lookup
                     (build_fg_map (merge bom (dropna melted)))
                     ordered_dates ws = Ok l →
  (d, c, s) ∈ l →
  let fgs := fg_lookup (build_fg_map (merge bom (dropna melted))) (c, d) in
  (∀ fg, fg ∈ fgs ↔ causes bom melted c d fg)
  ∧ s = render_fgs fgs
  ∧ (fgs = ∅ → s = placeholder)
  ∧ (fgs ≠ ∅ → s = join ", " (sorted fgs)
               ∧ sorted fgs ≠ []
               ∧ ∀ fg, fg ∈ sorted fgs ↔ fg ∈ fgs).
Proof.
  intros Hcov Hin fgs.
  pose proof (coverage_shortages_shape _ _ _ _ _ Hcov _ _ _ Hin) as Hs.
  fold fgs in Hs. split; [intros fg; apply elem_of_build_fg_map|].
  split; [done|]. split.
  - intros Hemp. rewrite Hs, Hemp. apply render_fgs_empty.
  - intros Hne. split; [by rewrite Hs, render_fgs_nonempty|].
    split; [by rewrite sorted_nil|]. intros fg. apply elem_of_sorted.
Qed.
End CauseFacts.

Lemma causes_are_joined_finished_goods_witness :
  "FG1" = render_fgs
            (fg_lookup (build_fg_map
                          (merge Sample.bom
                                 (dropna (melt [Sample.day1] Sample.plan_data))))
                       ("C1", Sample.day1)).
Proof.
  pose proof (causes_are_joined_finished_goods
                Sample.bom (melt [Sample.day1] Sample.plan_data)
                (build_need_lookup (explode Sample.bom Sample.plan_long))
                [Sample.day1] Sample.ws_cov
                [(Sample.day1, "C1", "FG1")] Sample.day1 "C1" "FG1") as Hw.
  destruct Hw as (_ & Hw & _); [by vm_compute | apply list_elem_of_here |].
  exact Hw.
Defined.

(** C4 as stated fails when a finished good is planned with a quantity of
    zero: the shortage of C1 names FG1, although no finished good has a
    non-zero planned quantity on that date. *)
Lemma zero_quantity_finished_good_is_named :
  coverage_shortages
    (build_need_lookup
       (explode Sample.bom (dropna (melt [Sample.day1] Sample.plan_data_zero))))
    (build_fg_map
       (merge Sample.bom (dropna (melt [Sample.day1] Sample.plan_data_zero))))
    [Sample.day1] Sample.ws_cov_negative
  = Ok [(Sample.day1, "C1", "FG1")]
  ∧ ∀ fg, ¬ nonzero_causes Sample.bom
              (melt [Sample.day1] Sample.plan_data_zero)
              "C1" Sample.day1 fg.
Proof.
  split; [by vm_compute|].
  intros fg (b & r & q & _ & Hr & _ & _ & _ & _ & Hq & Hnz).
  apply list_elem_of_singleton in Hr. subst r. simpl in Hq.
  injection Hq as <-. by apply Hnz.
Qed.

(** ** The explosion *)

Section UniqueFacts.
Context `{EqDecision A}.
Implicit Types (l : list A) (x y : A).

Lemma filter_none (P : A → Prop) `{∀ x, Decision (P x)} l :
  (∀ x, x ∈ l → ¬ P x) → filter P l = [].
Proof.
  induction l as [|y l IH]; intros Hl; [done|].
  rewrite filter_cons_False by (apply Hl, list_elem_of_here).
  apply IH. intros x Hx. by apply Hl, list_elem_of_further.
Qed.

Lemma elem_of_unique l x : x ∈ unique l ↔ x ∈ l.
Proof.
  induction l as [|y l IH]; [done|].
  cbn [unique]. rewrite !elem_of_cons, list_elem_of_filter, IH.
  destruct (decide (x = y)); tauto.
Qed.

Lemma NoDup_unique l : NoDup (unique l).
Proof.
  induction l as [|y l IH]; [constructor|].
  cbn [unique]. constructor; [|by apply NoDup_filter].
  rewrite list_elem_of_filter. tauto.
Qed.

Lemma filter_eq_NoDup l x :
  NoDup l → x ∈ l → filter (fun y => y = x) l = [x].
Proof.
  induction 1 as [|y l Hy Hnd IH]; [by intros ?%elem_of_nil|].
  intros Hx. rewrite filter_cons. case_decide as Hyx.
  - subst y. f_equal. apply filter_none. by intros z Hz ->.
  - apply elem_of_cons in Hx as [-> |Hx]; [done|]. by apply IH.
Qed.

Lemma filter_eq_unique l x :
  x ∈ l → filter (fun y => y = x) (unique l) = [x].
Proof.
  intros Hx. apply filter_eq_NoDup; [apply NoDup_unique|].
  by apply elem_of_unique.
Qed.
End UniqueFacts.

Section ExplosionFacts.
Context `{PyFloat F}.
Implicit Types (bom : list (BOMEntry F)) (plan : list (PlanRow F)).

Lemma filter_fmap {A B} (f : A → B) (P : B → Prop) `{∀ y, Decision (P y)}
    (l : list A) :
  filter P (f <$> l) = f <$> filter (fun x => P (f x)) l.
Proof.
  induction l as [|x l IH]; [done|].
  rewrite fmap_cons, !filter_cons, IH. by case_decide.
Qed.

Lemma bind_nil {A B} (f : A → list B) : [] ≫= f = [].
Proof. reflexivity. Qed.

Lemma merge_cons (b : BOMEntry F) bom plan :
  merge (b :: bom) plan = merge [b] plan ++ merge bom plan.
Proof. unfold merge. by rewrite !bind_cons, bind_nil, app_nil_r. Qed.

(** The values summed for one group are the terms of the specification. *)
Lemma group_terms bom plan (c : string) (d : date) :
  m_TotalNeed <$> filter (fun m => group_key m = (c, d)) (merge bom plan)
  = need_terms bom plan c d.
Proof.
  unfold need_terms. induction bom as [|b bom IH]; [done|].
  rewrite merge_cons, filter_app, fmap_app, IH. clear IH.
  rewrite filter_cons.
  assert (m_TotalNeed <$>
            filter (fun m => group_key m = (c, d)) (merge [b] plan)
          = if decide (bom_Component b = c)
            then (fun p => fmul (bom_CompQty b) (plan_QtyPlanned p))
                   <$> filter (fun p => plan_FG p = bom_FG b ∧ plan_Date p = d)
                              plan
            else []) as ->.
  { unfold merge. rewrite bind_cons, bind_nil, app_nil_r.
    rewrite filter_fmap, <- list_fmap_compose, list_filter_filter.
    unfold group_key. simpl. case_decide as Hc.
    - rewrite (list_filter_iff _
                 (fun p => plan_FG p = bom_FG b ∧ plan_Date p = d)); [done|].
      intros p. subst c. split; [intros [[= ?] ?]|intros [? ?]]; by subst.
    - rewrite filter_none; [done|]. intros p _ [[= ? ?] _]. done. }
  case_decide; [by rewrite bind_cons|done].
Qed.

Lemma explode_group bom plan (c : string) (d : date) :
  (c, d) ∈ group_key <$> merge bom plan →
  filter (fun r => (n_Component r, n_Date r) = (c, d)) (explode bom plan)
  = [ {| n_Component := c; n_Date := d;
         n_TotalNeed := need_sigma bom plan c d |} ].
Proof.
  intros Hkey. unfold explode, groupby_sum. rewrite filter_fmap. simpl.
  rewrite (list_filter_iff _ (fun k => k = (c, d)))
    by (intros [c' d']; simpl; reflexivity).
  rewrite filter_eq_unique by done. simpl.
  unfold need_sigma. by rewrite group_terms.
Qed.

Lemma elem_of_explode bom plan (row : NeedRow F) :
  row ∈ explode bom plan
  ↔ (n_Component row, n_Date row) ∈ group_key <$> merge bom plan
    ∧ n_TotalNeed row = need_sigma bom plan (n_Component row) (n_Date row).
Proof.
  unfold explode, groupby_sum. rewrite list_elem_of_fmap. split.
  - intros ([c d] & -> & Hk). rewrite elem_of_unique in Hk. simpl.
    split; [done|]. unfold need_sigma. by rewrite group_terms.
  - intros [Hk Hv]. exists (n_Component row, n_Date row).
    split; [|by rewrite elem_of_unique]. simpl. rewrite group_terms.
    destruct row; simpl in *. unfold need_sigma in Hv. by subst.
Qed.

Lemma need_terms_absent bom plan (c : string) (d : date) :
  (c, d) ∉ group_key <$> merge bom plan → need_terms bom plan c d = [].
Proof.
  intros Hk. rewrite <- group_terms. rewrite filter_none; [done|].
  intros m Hm Hkey. apply Hk. apply list_elem_of_fmap. by exists m.
Qed.

Lemma need_terms_cons (b : BOMEntry F) bom plan (c : string) (d : date) :
  need_terms (b :: bom) plan c d
  = (if decide (bom_Component b = c)
     then (fun p => fmul (bom_CompQty b) (plan_QtyPlanned p))
            <$> filter (fun p => plan_FG p = bom_FG b ∧ plan_Date p = d) plan
     else [])
    ++ need_terms bom plan c d.
Proof.
  unfold need_terms. rewrite filter_cons.
  case_decide; [by rewrite bind_cons|done].
Qed.

Section ZeroRow.
Hypothesis fadd_zero : ∀ x : F, fadd x f0 = x.
Hypothesis fmul_zero : ∀ q : F, fmul q f0 = f0.

Lemma fold_left_fadd_zero (l1 l2 : list F) (a : F) :
  fold_left fadd (l1 ++ f0 :: l2) a = fold_left fadd (l1 ++ l2) a.
Proof. rewrite !fold_left_app. simpl. by rewrite fadd_zero. Qed.

Lemma need_terms_zero_row bom (l1 l2 : list (PlanRow F)) (z : PlanRow F)
    (c : string) (d : date) :
  plan_QtyPlanned z = f0 →
  ∀ a : F,
    fold_left fadd (need_terms bom (l1 ++ z :: l2) c d) a
    = fold_left fadd (need_terms bom (l1 ++ l2) c d) a.
Proof.
  intros Hz. induction bom as [|b bom IH]; intros a; [done|].
  rewrite !need_terms_cons, !fold_left_app, IH. f_equal.
  case_decide; [|done].
  rewrite !filter_app, filter_cons, !fmap_app.
  case_decide; [|done].
  rewrite fmap_cons, Hz, fmul_zero. apply fold_left_fadd_zero.
Qed.

Lemma need_sigma_zero_row bom (l1 l2 : list (PlanRow F)) (z : PlanRow F)
    (c : string) (d : date) :
  plan_QtyPlanned z = f0 →
  need_sigma bom (l1 ++ z :: l2) c d = need_sigma bom (l1 ++ l2) c d.
Proof. intros Hz. by apply need_terms_zero_row. Qed.
End ZeroRow.

Lemma merge_keys_zero_row bom (l1 l2 : list (PlanRow F)) (z : PlanRow F)
    (k : string * Z) :
  k ∈ group_key <$> merge bom (l1 ++ l2) →
  k ∈ group_key <$> merge bom (l1 ++ z :: l2).
Proof.
  rewrite !list_elem_of_fmap. intros (m & -> & Hm). exists m. split; [done|].
  apply elem_of_merge in Hm as (b & p & Hb & Hp & Hfg & ->).
  apply elem_of_merge. exists b, p. split_and!; try done.
  rewrite elem_of_app, elem_of_cons. rewrite elem_of_app in Hp. tauto.
Qed.

(** C1 (explosion additivity).  For every (component, date) pair of the
    inner join of BOM and plan on the finished good, the explosion has
    exactly one row with that key, and its total need is the sum of quantity
    per unit times planned quantity over the matching BOM entries and plan
    rows.  Where adding zero and multiplying by zero behave as in exact
    arithmetic, inserting a plan row with a planned quantity of zero leaves
    the total need of every pair unchanged: every row of the explosion is
    kept as it is, and a row that appears has a total need of zero. *)
Theorem explosion_additivity bom plan :
  (∀ c d,
     (c, d) ∈ group_key <$> merge bom plan →
     filter (fun r => (n_Component r, n_Date r) = (c, d)) (explode bom plan)
     = [ {| n_Component := c; n_Date := d;
            n_TotalNeed := need_sigma bom plan c d |} ])
  ∧ (∀ (l1 l2 : list (PlanRow F)) (z : PlanRow F),
       (∀ x : F, fadd x f0 = x) →
       (∀ q : F, fmul q f0 = f0) →
       plan = l1 ++ l2 →
       plan_QtyPlanned z = f0 →
       (∀ c d, need_sigma bom (l1 ++ z :: l2) c d = need_sigma bom plan c d)
       ∧ (∀ row, row ∈ explode bom plan →
                 row ∈ explode bom (l1 ++ z :: l2))
       ∧ (∀ row, row ∈ explode bom (l1 ++ z :: l2) →
                 row ∈ explode bom plan ∨ n_TotalNeed row = f0)).
Proof.
  split; [intros c d; apply explode_group|].
  intros l1 l2 z Hadd Hmul -> Hz.
  split; [intros c d; by apply need_sigma_zero_row|]. split.
  - intros row [Hk Hv]%elem_of_explode. apply elem_of_explode.
    split; [by apply merge_keys_zero_row|].
    by rewrite need_sigma_zero_row.
  - intros row [Hk Hv]%elem_of_explode.
    rewrite need_sigma_zero_row in Hv by done.
    destruct (decide ((n_Component row, n_Date row)
                        ∈ group_key <$> merge bom (l1 ++ l2))) as [Hin|Hout].
    + left. by apply elem_of_explode.
    + right. rewrite Hv. unfold need_sigma.
      by rewrite need_terms_absent.
Qed.
End ExplosionFacts.

Lemma explosion_additivity_witness :
  explode Sample.bom
          ([] ++ {| plan_FG := "FG1"; plan_Date := Sample.day2;
                    plan_QtyPlanned := 0 |} :: Sample.plan_long)
  = [ {| n_Component := "C1"; n_Date := Sample.day2; n_TotalNeed := 0 |};
      {| n_Component := "C1"; n_Date := Sample.day1; n_TotalNeed := 10 |} ]
  ∧ ∀ row, row ∈ explode Sample.bom Sample.plan_long →
           row ∈ explode Sample.bom
                   ([] ++ {| plan_FG := "FG1"; plan_Date := Sample.day2;
                             plan_QtyPlanned := 0 |} :: Sample.plan_long).
Proof.
  split; [by vm_compute|].
  refine (proj1 (proj2 (proj2 (explosion_additivity Sample.bom
                                 Sample.plan_long)
                          [] Sample.plan_long
                          {| plan_FG := "FG1"; plan_Date := Sample.day2;
                             plan_QtyPlanned := 0 |}
                          _ _ eq_refl eq_refl))).
  - intros x. apply Z.add_0_r.
  - intros q. apply Z.mul_0_r.
Defined.

(** ** The requirement sheet sync *)

Section ReconcileFacts.
Context `{PyFloat F}.
Implicit Types (ws : sheet F) (need_lookup : gmap (string * Z) F).

Lemma cell_value_set_cell ws (r c : Z) (v : value F) (r' c' : Z) :
  cell_value (set_cell ws r c v) r' c'
  = if decide (r' = r ∧ c' = c) then v else cell_value ws r' c'.
Proof.
  unfold cell_value, set_cell. simpl. case_decide as Heq.
  - destruct Heq as [-> ->]. by rewrite lookup_insert_eq.
  - rewrite lookup_insert_ne; [done|]. intros [= -> ->]. by apply Heq.
Qed.

Lemma reconcile_cell_value need_lookup (comp : string) (day : date) ws
    (r c r' c' : Z) :
  cell_value (reconcile_cell need_lookup comp day ws r c) r' c'
  = if decide (r' = r ∧ c' = c)
    then cell_update need_lookup comp day (cell_value ws r c)
    else cell_value ws r' c'.
Proof.
  unfold reconcile_cell, cell_update.
  destruct (need_lookup !! (comp, day)) as [new_val|].
  - destruct (fgt new_val _).
    + apply cell_value_set_cell.
    + case_decide as Heq; [by destruct Heq as [-> ->]|done].
  - case_decide as Heq; [by destruct Heq as [-> ->]|done].
Qed.

Lemma reconcile_cell_dims need_lookup (comp : string) (day : date) ws
    (r c : Z) :
  max_row (reconcile_cell need_lookup comp day ws r c) = max_row ws
  ∧ max_column (reconcile_cell need_lookup comp day ws r c) = max_column ws.
Proof.
  unfold reconcile_cell.
  destruct (need_lookup !! (comp, day)) as [new_val|]; [|done].
  by destruct (fgt new_val _).
Qed.

(** The inner loop, from column [2 + k] on, [n] columns to go. *)
Lemma reconcile_columns need_lookup (ordered_dates : list date)
    (comp : string) (r : Z) (n : nat) :
  ∀ (k : nat) ws,
    (k + n ≤ length ordered_dates)%nat →
    ∃ ws',
      foldM (fun ws '(i, col_idx) =>
               day ← py_index ordered_dates i;
               Ok (reconcile_cell need_lookup comp day ws r col_idx))
            ws
            (enumerate_from (Z.of_nat k)
               (py_range (2 + Z.of_nat k) (2 + Z.of_nat k + Z.of_nat n)))
      = Ok ws'
      ∧ max_row ws' = max_row ws
      ∧ max_column ws' = max_column ws
      ∧ ∀ r' c',
          cell_value ws' r' c'
          = if decide (r' = r
                       ∧ 2 + Z.of_nat k ≤ c' < 2 + Z.of_nat k + Z.of_nat n)
            then match ordered_dates !! Z.to_nat (c' - 2) with
                 | Some day =>
                     cell_update need_lookup comp day (cell_value ws r' c')
                 | None => cell_value ws r' c'
                 end
            else cell_value ws r' c'.
Proof.
  induction n as [|n IH]; intros k ws Hk.
  - rewrite py_range_nil by lia. exists ws. split_and!; try done.
    intros r' c'. case_decide; [lia|done].
  - rewrite py_range_cons by lia. cbn [enumerate_from foldM].
    destruct (lookup_lt_is_Some_2 ordered_dates k) as [day Hday]; [lia|].
    rewrite (py_index_lookup _ _ _ Hday). cbn [mbind res_bind].
    destruct (IH (S k) (reconcile_cell need_lookup comp day ws r
                                       (2 + Z.of_nat k)))
      as (ws' & Hloop & Hmr & Hmc & Hcells); [lia|].
    exists ws'.
    replace (Z.of_nat k + 1) with (Z.of_nat (S k)) by lia.
    replace (2 + Z.of_nat k + 1) with (2 + Z.of_nat (S k)) by lia.
    replace (2 + Z.of_nat k + Z.of_nat (S n))
      with (2 + Z.of_nat (S k) + Z.of_nat n) by lia.
    split; [done|].
    destruct (reconcile_cell_dims need_lookup comp day ws r (2 + Z.of_nat k))
      as [Hmr1 Hmc1].
    split; [congruence|]. split; [congruence|].
    intros r' c'. rewrite Hcells, !reconcile_cell_value.
    destruct (decide (r' = r ∧ c' = 2 + Z.of_nat k)) as [[-> ->]|Hne].
    + rewrite decide_False by lia. rewrite decide_True by lia.
      replace (Z.to_nat (2 + Z.of_nat k - 2)) with k by lia.
      by rewrite Hday.
    + repeat case_decide; try done; lia.
Qed.

Lemma reconcile_row_value need_lookup (ordered_dates : list date) ws (r : Z) :
  ∃ ws',
    reconcile_row need_lookup ordered_dates
                  (py_range 2 (2 + Z.of_nat (length ordered_dates))) ws r
    = Ok ws'
    ∧ max_row ws' = max_row ws
    ∧ max_column ws' = max_column ws
    ∧ ∀ r' c',
        cell_value ws' r' c'
        = if decide (r' = r
                     ∧ 2 ≤ c' < 2 + Z.of_nat (length ordered_dates)
                     ∧ clean_comp (cell_value ws r 1) ≠ "")
          then match ordered_dates !! Z.to_nat (c' - 2) with
               | Some day =>
                   cell_update need_lookup (clean_comp (cell_value ws r 1))
                               day (cell_value ws r' c')
               | None => cell_value ws r' c'
               end
          else cell_value ws r' c'.
Proof.
  unfold reconcile_row. case_decide as Hblank.
  - exists ws. split_and!; try done. intros r' c'.
    rewrite decide_False; [done|]. tauto.
  - destruct (reconcile_columns need_lookup ordered_dates
                (clean_comp (cell_value ws r 1)) r
                (length ordered_dates) O ws)
      as (ws' & Hloop & Hmr & Hmc & Hcells); [lia|].
    exists ws'. split; [exact Hloop|]. split; [done|]. split; [done|].
    intros r' c'. rewrite Hcells.
    repeat case_decide; try done; exfalso; simpl in *; try lia; tauto.
Qed.

(** The outer loop over distinct rows. *)
Lemma reconcile_rows_value need_lookup (ordered_dates : list date)
    (rows : list Z) :
  NoDup rows →
  ∀ ws,
    ∃ ws',
      foldM (reconcile_row need_lookup ordered_dates
               (py_range 2 (2 + Z.of_nat (length ordered_dates))))
            ws rows
      = Ok ws'
      ∧ max_row ws' = max_row ws
      ∧ max_column ws' = max_column ws
      ∧ ∀ r' c',
          cell_value ws' r' c'
          = if decide (r' ∈ rows
                       ∧ 2 ≤ c' < 2 + Z.of_nat (length ordered_dates)
                       ∧ clean_comp (cell_value ws r' 1) ≠ "")
            then match ordered_dates !! Z.to_nat (c' - 2) with
                 | Some day =>
                     cell_update need_lookup (clean_comp (cell_value ws r' 1))
                                 day (cell_value ws r' c')
                 | None => cell_value ws r' c'
                 end
            else cell_value ws r' c'.
Proof.
  induction 1 as [|r0 rows Hr0 Hnd IH]; intros ws.
  - exists ws. split_and!; [done..|]. intros r' c'.
    rewrite decide_False; [done|]. intros [?%elem_of_nil _]. done.
  - cbn [foldM].
    destruct (reconcile_row_value need_lookup ordered_dates ws r0)
      as (ws1 & -> & Hmr1 & Hmc1 & Hcells1).
    cbn [mbind res_bind].
    destruct (IH ws1) as (ws' & Hloop & Hmr & Hmc & Hcells).
    exists ws'. split; [done|]. split; [congruence|]. split; [congruence|].
    assert (∀ r', cell_value ws1 r' 1 = cell_value ws r' 1) as Hlabel.
    { intros r'. rewrite Hcells1. rewrite decide_False; [done|]. lia. }
    intros r' c'. rewrite Hcells, Hlabel, Hcells1.
    destruct (decide (r' = r0)) as [->|Hne];
      repeat case_decide; try done; exfalso;
      repeat match goal with
             | Hin : context [_ ∈ _ :: _] |- _ => rewrite elem_of_cons in Hin
             end;
      tauto.
Qed.

(** What the sync leaves in every cell. *)
Lemma reconcile_value need_lookup (ordered_dates : list date) ws (hdr : Z) :
  find_component_header ws = Some hdr →
  ∃ ws',
    reconcile need_lookup ordered_dates ws = Ok ws'
    ∧ max_row ws' = max_row ws
    ∧ max_column ws' = max_column ws
    ∧ ∀ r c,
        cell_value ws' r c
        = reconciled_value need_lookup ordered_dates hdr ws r c.
Proof.
  intros Hhdr. unfold reconcile. rewrite Hhdr.
  destruct (reconcile_rows_value need_lookup ordered_dates
              (py_range (hdr + 1) (max_row ws + 1))
              (NoDup_py_range _ _) ws)
    as (ws' & Hloop & Hmr & Hmc & Hcells).
  exists ws'. split; [done|]. split; [done|]. split; [done|].
  intros r c. rewrite Hcells. unfold reconciled_value, in_footprint.
  repeat case_decide; try done; exfalso;
    repeat match goal with
           | Hin : context [_ ∈ py_range _ _] |- _ =>
               rewrite elem_of_py_range in Hin
           end;
    match goal with Hn : ¬ _ |- _ => apply Hn end;
    destruct_and!; split_and!; (done || lia).
Qed.


Lemma reconciled_value_outside need_lookup (ordered_dates : list date)
    (hdr : Z) ws (r c : Z) :
  ¬ in_footprint ordered_dates hdr ws r c →
  reconciled_value need_lookup ordered_dates hdr ws r c = cell_value ws r c.
Proof. intros Hout. unfold reconciled_value. by rewrite decide_False. Qed.

Lemma reconciled_value_inside need_lookup (ordered_dates : list date)
    (hdr : Z) ws (r : Z) (i : nat) (day : date) :
  hdr < r ≤ max_row ws →
  clean_comp (cell_value ws r 1) ≠ "" →
  ordered_dates !! i = Some day →
  reconciled_value need_lookup ordered_dates hdr ws r (2 + Z.of_nat i)
  = cell_update need_lookup (clean_comp (cell_value ws r 1)) day
                (cell_value ws r (2 + Z.of_nat i)).
Proof.
  intros Hr Hc Hday. unfold reconciled_value, in_footprint.
  apply lookup_lt_Some in Hday as Hi.
  rewrite decide_True by (split_and!; try done; lia).
  replace (Z.to_nat (2 + Z.of_nat i - 2)) with i by lia.
  by rewrite Hday.
Qed.



Section Monotone.
Hypothesis flt_asym : ∀ a b : F, flt a b = true → flt b a = false.



End Monotone.
End ReconcileFacts.

Section ReconcileTheorems.
Context `{PyFloat F}.
Implicit Types (ws : sheet F) (need_lookup : gmap (string * Z) F).



Lemma foldM_fixed {A B} (f : A → B → res A) (a : A) (l : list B) :
  (∀ x, x ∈ l → f a x = Ok a) → foldM f a l = Ok a.
Proof.
  induction l as [|x l IH]; intros Hf; [done|].
  cbn [foldM]. rewrite Hf by apply list_elem_of_here.
  cbn [mbind res_bind]. apply IH. intros y Hy.
  by apply Hf, list_elem_of_further.
Qed.

Lemma elem_of_enumerate_range (i col : Z) (n : nat) :
  ∀ k : nat,
    (i, col) ∈ enumerate_from (Z.of_nat k)
                 (py_range (2 + Z.of_nat k) (2 + Z.of_nat k + Z.of_nat n)) →
    ∃ j : nat, i = Z.of_nat j ∧ col = 2 + Z.of_nat j ∧ (k ≤ j < k + n)%nat.
Proof.
  induction n as [|n IH]; intros k.
  - rewrite py_range_nil by lia. by intros ?%elem_of_nil.
  - rewrite py_range_cons by lia. cbn [enumerate_from].
    rewrite elem_of_cons. intros [[= -> ->]|Hin].
    + exists k. split_and!; try done; lia.
    + replace (Z.of_nat k + 1) with (Z.of_nat (S k)) in Hin by lia.
      replace (2 + Z.of_nat k + 1) with (2 + Z.of_nat (S k)) in Hin by lia.
      replace (2 + Z.of_nat k + Z.of_nat (S n))
        with (2 + Z.of_nat (S k) + Z.of_nat n) in Hin by lia.
      destruct (IH _ Hin) as (j & ? & ? & ?). exists j. split_and!; try done; lia.
Qed.

Lemma find_component_header_ext ws ws' :
  max_row ws' = max_row ws →
  (∀ r, cell_value ws' r 1 = cell_value ws r 1) →
  find_component_header ws' = find_component_header ws.
Proof.
  intros Hmr Hlabel. unfold find_component_header. rewrite Hmr. f_equal.
  apply list_filter_iff. intros r. by rewrite Hlabel.
Qed.

(** C9 (idempotence of the sync).  Where no number is strictly below itself,
    the sync of a sheet with a "Component" header returns a sheet, and the
    sync of that sheet with the same need lookup and the same dates returns
    it unchanged. *)
Theorem reconcile_idempotent need_lookup (ordered_dates : list date)
    ws (hdr : Z) :
  (∀ a : F, flt a a = false) →
  find_component_header ws = Some hdr →
  ∃ ws',
    reconcile need_lookup ordered_dates ws = Ok ws'
    ∧ reconcile need_lookup ordered_dates ws' = Ok ws'.
Proof.
  intros Hirr Hhdr.
  destruct (reconcile_value need_lookup ordered_dates ws hdr Hhdr)
    as (ws' & Hrec & Hmr & Hmc & Hcells).
  exists ws'. split; [done|].
  assert (∀ r, cell_value ws' r 1 = cell_value ws r 1) as Hlabel.
  { intros r. rewrite Hcells. apply reconciled_value_outside.
    unfold in_footprint. lia. }
  unfold reconcile.
  rewrite (find_component_header_ext _ _ Hmr Hlabel), Hhdr, Hmr.
  apply foldM_fixed. intros r Hr%elem_of_py_range.
  unfold reconcile_row. rewrite Hlabel. case_decide as Hblank; [done|].
  apply foldM_fixed. intros [i col] Hin.
  apply (elem_of_enumerate_range i col (length ordered_dates) O) in Hin
    as (j & -> & -> & Hj).
  destruct (lookup_lt_is_Some_2 ordered_dates j) as [day Hday]; [lia|].
  rewrite (py_index_lookup _ _ _ Hday). cbn [mbind res_bind]. f_equal.
  unfold reconcile_cell.
  destruct (need_lookup !! _) as [new_val|] eqn:Hneed; [|done].
  assert (hdr < r ≤ max_row ws) as Hr' by lia.
  rewrite Hcells, (reconciled_value_inside _ _ _ _ _ _ _ Hr' Hblank Hday).
  unfold cell_update. rewrite Hneed.
  destruct (fgt new_val (safe_float (cell_value ws _ _))) eqn:Hgt.
  - simpl. unfold fgt. by rewrite Hirr.
  - by rewrite Hgt.
Qed.
End ReconcileTheorems.



Lemma reconcile_idempotent_witness :
  ∃ ws',
    reconcile (build_need_lookup (explode Sample.bom Sample.plan_long))
              [Sample.day1] Sample.ws_req = Ok ws'
    ∧ reconcile (build_need_lookup (explode Sample.bom Sample.plan_long))
                [Sample.day1] ws' = Ok ws'.
Proof.
  apply (reconcile_idempotent _ _ Sample.ws_req 1).
  - intros a. apply Z.ltb_irrefl.
  - by vm_compute.
Defined.

(** * Further properties of the pipeline *)

(** ** Ordering of the shortage table *)

#[export] Instance shortage_le_total : Total shortage_le.
Proof.
  intros [[d1 c1] s1] [[d2 c2] s2]. unfold shortage_le. simpl.
  destruct (Z.lt_trichotomy d1 d2) as [?|[->|?]]; [by left; left| |by right; left].
  destruct (total String.le c1 c2); [left|right]; by right.
Qed.

(** The shortage table returned by a successful run is ordered by date and,
    within a date, by component, and holds exactly the shortages the
    simulator emitted. *)
Theorem shortage_table_sorted `{PyFloat F} (bom : list (BOMEntry F))
    (date_cols : list date) (plan_data : list (PlanLine F))
    (ws_req ws_cov ws_req' : sheet F) (short_df : list shortage) :
  process_workbook bom date_cols plan_data ws_req ws_cov
  = Ok (short_df, ws_req') →
  Sorted shortage_le short_df
  ∧ ∃ shortages,
      coverage_shortages
        (build_need_lookup
           (groupby_sum (merge bom (dropna (melt date_cols plan_data)))))
        (build_fg_map (merge bom (dropna (melt date_cols plan_data))))
        date_cols ws_cov
      = Ok shortages
      ∧ short_df ≡ₚ shortages.
Proof.
  unfold process_workbook. destruct date_cols as [|d0 dates]; [done|].
  destruct (reconcile _ _ ws_req) as [w|]; [|done]. cbn [mbind res_bind].
  destruct (coverage_shortages _ _ _ ws_cov) as [shortages|]; [|done].
  cbn [mbind res_bind]. intros [= <- <-]. split.
  - apply Sorted_merge_sort, _.
  - exists shortages. split; [done|]. apply merge_sort_Permutation.
Qed.

Lemma shortage_table_sorted_witness :
  Sorted shortage_le [(Sample.day1, "C1", "FG1")].
Proof.
  pose proof (shortage_table_sorted Sample.bom [Sample.day1] Sample.plan_data
                Sample.ws_req Sample.ws_cov
                (set_cell Sample.ws_req 3 2 (VNum 10))
                [(Sample.day1, "C1", "FG1")]) as Hw.
  destruct Hw as [Hw _]; [by vm_compute|]. exact Hw.
Defined.

(** ** Error and no-op behaviour of the requirement sheet sync *)

Section ReconcileEdges.
Context `{PyFloat F}.
Implicit Types (ws : sheet F) (need_lookup : gmap (string * Z) F).

Lemma find_component_header_None ws :
  find_component_header ws = None
  ↔ ∀ r, 1 ≤ r ≤ max_row ws →
         lower (strip (py_str (cell_value ws r 1))) ≠ "component".
Proof.
  unfold find_component_header. rewrite head_None. split.
  - intros Hnil r Hr Hlabel.
    assert (r ∈ filter (fun r => lower (strip (py_str (cell_value ws r 1)))
                                 = "component")
                       (py_range 1 (max_row ws + 1))) as Hin.
    { apply list_elem_of_filter. split; [done|]. apply elem_of_py_range. lia. }
    rewrite Hnil in Hin. by apply elem_of_nil in Hin.
  - intros Hnone. apply filter_none. intros r Hr%elem_of_py_range.
    apply Hnone. lia.
Qed.

(** The sync fails, with the [ValueError] naming the requirement sheet,
    exactly when no cell of column 1 in rows 1 .. max_row reads "component"
    after trimming and lower-casing; in every other case it returns a
    sheet. *)
Theorem reconcile_fails_iff_no_header need_lookup
    (ordered_dates : list date) ws :
  (reconcile need_lookup ordered_dates ws
   = Raise (ValueError
              "Cannot find 'Component' header in RM TOTAL REQUIREMENT sheet")
   ↔ ∀ r, 1 ≤ r ≤ max_row ws →
          lower (strip (py_str (cell_value ws r 1))) ≠ "component")
  ∧ ((∃ ws', reconcile need_lookup ordered_dates ws = Ok ws')
     ↔ ∃ r, 1 ≤ r ≤ max_row ws
            ∧ lower (strip (py_str (cell_value ws r 1))) = "component").
Proof.
  destruct (find_component_header ws) as [hdr|] eqn:Hhdr.
  - destruct (reconcile_value need_lookup ordered_dates ws hdr Hhdr)
      as (ws' & Hrec & _).
    apply find_component_header_found in Hhdr as [Hr Hlabel].
    split; split.
    + by rewrite Hrec.
    + intros Hnone. by destruct (Hnone hdr Hr).
    + intros _. by exists hdr.
    + intros _. by exists ws'.
  - pose proof (proj1 (find_component_header_None ws) Hhdr) as Hnone.
    unfold reconcile. rewrite Hhdr. split; split; try done.
    + by intros [ws' ?].
    + intros (r & Hr & Hlabel). by destruct (Hnone r Hr).
Qed.

(** Where the need lookup has no entry for any (row label, date) pair of the
    sheet, the sync returns the sheet as it is; in particular with an empty
    lookup. *)
Theorem reconcile_without_need need_lookup (ordered_dates : list date)
    ws (hdr : Z) :
  find_component_header ws = Some hdr →
  (∀ r day, hdr < r ≤ max_row ws → day ∈ ordered_dates →
            need_lookup !! (clean_comp (cell_value ws r 1), day) = None) →
  reconcile need_lookup ordered_dates ws = Ok ws.
Proof.
  intros Hhdr Hnone. unfold reconcile. rewrite Hhdr.
  apply foldM_fixed. intros r Hr%elem_of_py_range.
  unfold reconcile_row. case_decide; [done|].
  apply foldM_fixed. intros [i col] Hin.
  apply (elem_of_enumerate_range i col (length ordered_dates) O) in Hin
    as (j & -> & -> & Hj).
  destruct (lookup_lt_is_Some_2 ordered_dates j) as [day Hday]; [lia|].
  rewrite (py_index_lookup _ _ _ Hday). cbn [mbind res_bind]. f_equal.
  unfold reconcile_cell. rewrite Hnone; [done|lia|].
  by eapply list_elem_of_lookup_2.
Qed.
End ReconcileEdges.

Lemma reconcile_without_need_witness :
  reconcile (∅ : gmap (string * Z) Z) [Sample.day1; Sample.day2] Sample.ws_req
  = Ok Sample.ws_req.
Proof.
  apply (reconcile_without_need _ _ _ 1); [by vm_compute|].
  intros r day _ _. apply lookup_empty.
Defined.

(** ** The need lookup and the inner join *)

Section LookupFacts.
Context `{PyFloat F}.
Implicit Types (bom : list (BOMEntry F)) (plan : list (PlanRow F)).

(** The key under which a row of the explosion enters the lookup. *)
Local Abbreviation lookup_key r :=
  (clean_comp (VStr (n_Component r) : value F), n_Date r).

Lemma need_lookup_foldl (rows : list (NeedRow F)) (m : gmap (string * Z) F)
    (k : string * Z) :
  foldl (fun acc r => <[lookup_key r := n_TotalNeed r]> acc) m rows !! k
  = match last (filter (fun r => lookup_key r = k) rows) with
    | Some r => Some (n_TotalNeed r)
    | None => m !! k
    end.
Proof.
  revert m. induction rows as [|r rows IH]; intros m; [done|].
  cbn [foldl]. rewrite IH, filter_cons. case_decide as Hk.
  - rewrite last_cons. destruct (last (filter _ rows)); [done|].
    by rewrite <- Hk, lookup_insert_eq.
  - destruct (last (filter _ rows)); [done|]. by rewrite lookup_insert_ne.
Qed.

(** The need lookup holds, for a key, the total need of the last row of the
    explosion table whose component normalises to that key on that date, and
    nothing when there is no such row: rows whose components differ only in
    case or surrounding whitespace replace one another. *)
Theorem need_lookup_last_wins (tot_need_df : list (NeedRow F))
    (k : string * Z) :
  build_need_lookup tot_need_df !! k
  = n_TotalNeed <$> last (filter (fun r => lookup_key r = k) tot_need_df).
Proof.
  unfold build_need_lookup. rewrite need_lookup_foldl, lookup_empty.
  by destruct (last _).
Qed.




(** The join is an inner join: a BOM entry whose finished good is in no plan
    row, and a plan row whose finished good is in no BOM entry, leave the
    joined table, and so the explosion, as they are. *)
Theorem unmatched_rows_are_excluded bom plan :
  (∀ bom1 bom2 b,
     bom = bom1 ++ bom2 →
     (∀ p, p ∈ plan → plan_FG p ≠ bom_FG b) →
     merge (bom1 ++ b :: bom2) plan = merge bom plan
     ∧ explode (bom1 ++ b :: bom2) plan = explode bom plan)
  ∧ (∀ l1 l2 p,
       plan = l1 ++ l2 →
       (∀ b, b ∈ bom → bom_FG b ≠ plan_FG p) →
       merge bom (l1 ++ p :: l2) = merge bom plan
       ∧ explode bom (l1 ++ p :: l2) = explode bom plan).
Proof.
  split.
  - intros bom1 bom2 b -> Hb.
    assert (merge (bom1 ++ b :: bom2) plan = merge (bom1 ++ bom2) plan) as Hm.
    { unfold merge. rewrite !bind_app, bind_cons.
      rewrite (filter_none (fun p => plan_FG p = bom_FG b)) by done. done. }
    split; [done|]. unfold explode. by rewrite Hm.
  - intros l1 l2 p -> Hp.
    assert (merge bom (l1 ++ p :: l2) = merge bom (l1 ++ l2)) as Hm.
    { unfold merge. apply Forall_bind_ext, Forall_forall. intros b Hb. f_equal.
      rewrite !filter_app, filter_cons_False; [done|].
      intros Hfg. by apply (Hp b). }
    split; [done|]. unfold explode. by rewrite Hm.
Qed.
End LookupFacts.


Lemma unmatched_rows_are_excluded_witness :
  explode ([] ++ {| bom_FG := "FG9"; bom_Component := "C9"; bom_CompQty := 1 |}
              :: Sample.bom) Sample.plan_long
  = explode Sample.bom Sample.plan_long.
Proof.
  refine (proj2 (proj1 (unmatched_rows_are_excluded Sample.bom Sample.plan_long)
                   [] Sample.bom _ eq_refl _)).
  intros p Hp%list_elem_of_singleton. by subst.
Defined.

(** ** Failure and success of the coverage stage and of the whole run *)

Section RunFacts.
Context `{PyFloat F}.
Implicit Types (ws : sheet F) (need_lookup : gmap (string * Z) F).
Implicit Types (fg_map : gmap (string * Z) (gset string)).

Lemma py_index_out_of_range {A} (l : list A) (i : Z) :
  Z.of_nat (length l) ≤ i → py_index l i = Raise IndexError.
Proof.
  intros Hi. unfold py_index.
  assert ((i <? 0) = false) as -> by (apply Z.ltb_ge; lia).
  assert ((i <? 0) = false) as -> by (apply Z.ltb_ge; lia).
  rewrite lookup_ge_None_2; [done|lia].
Qed.

Lemma idx_transit_length (n : Z) : length (idx_transit_of n) = Z.to_nat n.
Proof.
  unfold idx_transit_of, py_range.
  rewrite !length_fmap, length_seq. f_equal. lia.
Qed.

Lemma simulate_days_too_many need_lookup fg_map ws (r : Z) (comp : string) :
  0 ≤ n_days_of ws →
  ∀ (days : list date) (k : nat) (prev : F),
    Z.of_nat k ≤ n_days_of ws + 1 →
    n_days_of ws + 1 < Z.of_nat (k + length days) →
    simulate_days need_lookup fg_map (idx_transit_of (n_days_of ws))
                  (row_values ws (3 + 3 * n_days_of ws) r) comp
                  (Z.of_nat k) days prev
    = Raise IndexError.
Proof.
  intros Hn days.
  induction days as [|day days IH]; intros k prev Hk Hlen;
    [simpl in Hlen; lia|].
  cbn [simulate_days].
  destruct (decide (Z.of_nat k = n_days_of ws + 1)) as [Hlast|Hmore].
  - unfold add_transit.
    assert ((Z.of_nat k =? 0) = false) as -> by (apply Z.eqb_neq; lia).
    rewrite py_index_out_of_range; [done|].
    rewrite idx_transit_length. lia.
  - assert (∃ prev', add_transit (idx_transit_of (n_days_of ws))
                       (row_values ws (3 + 3 * n_days_of ws) r)
                       (Z.of_nat k) prev = Ok prev') as [prev' ->].
    { destruct k as [|j]; [by eexists|].
      rewrite add_transit_later by lia. by eexists. }
    cbn [mbind res_bind].
    replace (Z.of_nat k + 1) with (Z.of_nat (S k)) by lia.
    rewrite IH; [done|lia|]. simpl in Hlen. lia.
Qed.

Lemma simulate_row_too_many need_lookup fg_map ws (r : Z)
    (ordered_dates : list date) :
  0 ≤ n_days_of ws →
  n_days_of ws + 1 < Z.of_nat (length ordered_dates) →
  simulate_row need_lookup fg_map (idx_transit_of (n_days_of ws))
               ordered_dates (row_values ws (3 + 3 * n_days_of ws) r)
  = if decide (clean_comp (cell_value ws r 1) = "") then Ok []
    else Raise IndexError.
Proof.
  intros Hn Hlen. unfold simulate_row.
  replace 0 with (1 - 1) at 1 by done. rewrite row_values_index by lia.
  cbn [mbind res_bind]. case_decide; [done|].
  replace 1 with (2 - 1) at 1 by done. rewrite row_values_index by lia.
  cbn [mbind res_bind].
  replace 2 with (3 - 1) at 1 by done. rewrite row_values_index by lia.
  cbn [mbind res_bind].
  apply (simulate_days_too_many _ _ _ _ _ Hn ordered_dates O); simpl; lia.
Qed.

Lemma mapM_res_raise {A B} (f : A → res B) (e : exn) (l : list A) :
  (∀ x, x ∈ l → f x = Raise e ∨ ∃ y, f x = Ok y) →
  (∃ x, x ∈ l ∧ f x = Raise e) →
  mapM f l = Raise e.
Proof.
  induction l as [|x l IH]; intros Hall (x0 & Hin & Hx0).
  - by apply elem_of_nil in Hin.
  - cbn [mapM]. destruct (Hall x (list_elem_of_here _ _)) as [->|[y Hy]];
      [done|].
    rewrite Hy. cbn [mbind res_bind]. rewrite IH; [done| |].
    + intros z Hz. apply Hall. by right.
    + apply elem_of_cons in Hin as [-> |Hin]; [congruence|]. by exists x0.
Qed.

(** With more plan dates than the sheet's width provides intransit columns
    for (more than n_days + 1), the coverage stage raises [IndexError] as
    soon as one row below the header has a label that is not blank. *)
Theorem coverage_too_many_dates need_lookup fg_map
    (ordered_dates : list date) ws (hdr r : Z) :
  find_apn_header ws = Ok hdr →
  0 ≤ n_days_of ws →
  n_days_of ws + 1 < Z.of_nat (length ordered_dates) →
  hdr < r ≤ max_row ws →
  clean_comp (cell_value ws r 1) ≠ "" →
  coverage_shortages need_lookup fg_map ordered_dates ws = Raise IndexError.
Proof.
  intros Hhdr Hn Hlen Hr Hc. unfold coverage_shortages. rewrite Hhdr.
  cbn [mbind res_bind]. unfold iter_rows.
  assert ((3 + 3 * n_days_of ws =? 0) = false) as -> by (apply Z.eqb_neq; lia).
  rewrite (mapM_res_raise _ IndexError); [done| |].
  - intros row (r' & -> & _)%list_elem_of_fmap.
    rewrite simulate_row_too_many by done. case_decide; eauto.
  - exists (row_values ws (3 + 3 * n_days_of ws) r). split.
    + apply list_elem_of_fmap. exists r. split; [done|].
      apply elem_of_py_range. lia.
    + rewrite simulate_row_too_many by done. by rewrite decide_False.
Qed.


(** The shortage table does not depend on the requirement sheet: two
    successful runs that differ only in that sheet return the same
    shortages. *)
Theorem shortages_ignore_requirement_sheet (bom : list (BOMEntry F))
    (date_cols : list date) (plan_data : list (PlanLine F))
    (ws_req1 ws_req2 ws_cov ws1 ws2 : sheet F) (s1 s2 : list shortage) :
  process_workbook bom date_cols plan_data ws_req1 ws_cov = Ok (s1, ws1) →
  process_workbook bom date_cols plan_data ws_req2 ws_cov = Ok (s2, ws2) →
  s1 = s2.
Proof.
  unfold process_workbook. destruct date_cols as [|d0 dates]; [done|].
  destruct (reconcile _ _ ws_req1) as [w1|]; [|done].
  destruct (reconcile _ _ ws_req2) as [w2|]; [|done].
  cbn [mbind res_bind].
  destruct (coverage_shortages _ _ _ ws_cov) as [shortages|]; [|done].
  cbn [mbind res_bind]. by intros [= <- _] [= <- _].
Qed.

(** The stages fail in order: without date columns the run raises the
    date-column [ValueError] whatever the sheets hold; with date columns but
    no "Component" header it raises the requirement-sheet [ValueError]
    whatever the coverage sheet holds; with both but no "APN" cell in the
    first column of the coverage sheet it raises [StopIteration]. *)
Theorem process_workbook_error_order (bom : list (BOMEntry F))
    (date_cols : list date) (plan_data : list (PlanLine F))
    (ws_req ws_cov : sheet F) :
  (date_cols = [] →
   process_workbook bom date_cols plan_data ws_req ws_cov
   = Raise (ValueError "No date columns detected in plan sheet."))
  ∧ (date_cols ≠ [] →
     find_component_header ws_req = None →
     process_workbook bom date_cols plan_data ws_req ws_cov
     = Raise (ValueError
                "Cannot find 'Component' header in RM TOTAL REQUIREMENT sheet"))
  ∧ (date_cols ≠ [] →
     is_Some (find_component_header ws_req) →
     (∀ r, 1 ≤ r ≤ max_row ws_cov →
           value_eq_str (cell_value ws_cov r 1) "APN" = false) →
     process_workbook bom date_cols plan_data ws_req ws_cov
     = Raise StopIteration).
Proof.
  split; [by intros ->|]. split.
  - intros Hdates Hreq. unfold process_workbook.
    destruct date_cols as [|d0 dates]; [done|].
    unfold reconcile. by rewrite Hreq.
  - intros Hdates [hdr Hreq] Hcov. unfold process_workbook.
    destruct date_cols as [|d0 dates]; [done|].
    destruct (reconcile_value
                (build_need_lookup
                   (groupby_sum
                      (merge bom (dropna (melt (d0 :: dates) plan_data)))))
                (d0 :: dates) ws_req hdr Hreq) as (ws' & -> & _).
    cbn [mbind res_bind]. unfold coverage_shortages.
    by rewrite (find_apn_header_absent _ Hcov).
Qed.

(** The header rows are the first matches: no row above the row found for
    "APN" holds "APN" in its first cell, and no row above the row found for
    "Component" reads "component" after trimming and lower-casing. *)
Theorem header_rows_are_first_matches (ws : sheet F) :
  (∀ hdr, find_apn_header ws = Ok hdr →
          1 ≤ hdr ≤ max_row ws
          ∧ cell_value ws hdr 1 = VStr "APN"
          ∧ ∀ r, 1 ≤ r < hdr → cell_value ws r 1 ≠ VStr "APN")
  ∧ (∀ hdr, find_component_header ws = Some hdr →
            1 ≤ hdr ≤ max_row ws
            ∧ lower (strip (py_str (cell_value ws hdr 1))) = "component"
            ∧ ∀ r, 1 ≤ r < hdr →
                   lower (strip (py_str (cell_value ws r 1))) ≠ "component").
Proof.
  assert (∀ (P : Z → Prop) `{∀ r, Decision (P r)} (hdr : Z),
            head (filter P (py_range 1 (max_row ws + 1))) = Some hdr →
            ∀ r, 1 ≤ r < hdr → ¬ P r) as Hfirst.
  { intros P HP hdr Hhd r Hr.
    apply head_filter_Some in Hhd as (l1 & l2 & Hl & Hnot).
    assert (py_range 1 (max_row ws + 1) !! length l1 = Some hdr) as Hlook.
    { rewrite Hl. by apply list_lookup_middle. }
    assert (length l1 < Z.to_nat (max_row ws + 1 - 1))%nat as Hlen.
    { apply lookup_lt_Some in Hlook. unfold py_range in Hlook.
      by rewrite length_fmap, length_seq in Hlook. }
    rewrite py_range_lookup in Hlook by done. injection Hlook as Hhdr.
    assert (l1 !! Z.to_nat (r - 1) = Some r) as Hr1.
    { rewrite <- (lookup_app_l l1 (hdr :: l2)), <- Hl by lia.
      rewrite py_range_lookup by lia. f_equal. lia. }
    rewrite Forall_forall in Hnot. apply Hnot.
    by eapply list_elem_of_lookup_2. }
  split.
  - intros hdr Hhdr. destruct (find_apn_header_found _ _ Hhdr) as [Hr Hv].
    split; [done|]. split; [done|]. intros r Hr' Hv'.
    unfold find_apn_header in Hhdr.
    destruct (head _) as [h|] eqn:Hhd; [|done]. injection Hhdr as ->.
    apply (Hfirst _ _ _ Hhd r Hr'). by rewrite Hv'.
  - intros hdr Hhdr. destruct (find_component_header_found _ _ Hhdr) as [Hr Hv].
    split; [done|]. split; [done|]. intros r Hr'.
    by apply (Hfirst _ _ _ Hhdr r Hr').
Qed.
End RunFacts.

Lemma coverage_too_many_dates_witness :
  coverage_shortages (∅ : gmap (string * Z) Z) ∅
                     [Sample.day1; Sample.day2; Sample.day3; Sample.day4]
                     Sample.ws_cov_four_dates
  = Raise IndexError.
Proof.
  apply (coverage_too_many_dates _ _ _ _ 1 2);
    [by vm_compute | by vm_compute | by vm_compute | by vm_compute
    | by vm_compute].
Defined.


Lemma shortages_ignore_requirement_sheet_witness :
  [(Sample.day1, "C1", "FG1")] = [(Sample.day1, "C1", "FG1")].
Proof.
  apply (shortages_ignore_requirement_sheet
           Sample.bom [Sample.day1] Sample.plan_data
           Sample.ws_req Sample.ws_req_empty_label Sample.ws_cov
           (set_cell Sample.ws_req 3 2 (VNum 10)) Sample.ws_req_empty_label);
    by vm_compute.
Defined.

Lemma process_workbook_error_order_witness :
  process_workbook Sample.bom [Sample.day1] Sample.plan_data
                   Sample.ws_req_no_header Sample.ws_cov_no_apn
  = Raise (ValueError
             "Cannot find 'Component' header in RM TOTAL REQUIREMENT sheet").
Proof.
  apply (process_workbook_error_order Sample.bom [Sample.day1]
           Sample.plan_data Sample.ws_req_no_header Sample.ws_cov_no_apn);
    [done | by vm_compute].
Defined.

Lemma header_rows_are_first_matches_witness :
  1 ≤ 1 ≤ max_row Sample.ws_cov
  ∧ cell_value Sample.ws_cov 1 1 = VStr "APN"
  ∧ ∀ r, 1 ≤ r < 1 → cell_value Sample.ws_cov r 1 ≠ VStr "APN".
Proof.
  apply (header_rows_are_first_matches Sample.ws_cov). by vm_compute.
Defined.

(** ** Normalisation of labels *)

Section StringFacts.

Lemma append_cons (c : ascii) (s t : string) :
  (String c s ++ t)%string = String c (s ++ t)%string.
Proof. reflexivity. Qed.

Lemma append_nil_r (s : string) : (s ++ "")%string = s.
Proof. induction s as [|c s IH]; [done|]. by rewrite append_cons, IH. Qed.

Lemma append_assoc (s t u : string) :
  ((s ++ t) ++ u)%string = (s ++ (t ++ u))%string.
Proof. induction s as [|c s IH]; [done|]. by rewrite !append_cons, IH. Qed.

Lemma rev_app_append (s t : string) :
  String.rev_app s t = (String.rev s ++ t)%string.
Proof.
  unfold String.rev. revert t.
  induction s as [|c s IH]; intros t; [done|].
  simpl. rewrite (IH (String c "")), IH, append_assoc. done.
Qed.

Lemma rev_append (s t : string) :
  String.rev (s ++ t)%string = (String.rev t ++ String.rev s)%string.
Proof.
  induction s as [|c s IH]; simpl.
  - by rewrite append_nil_r.
  - unfold String.rev in *. simpl.
    rewrite !(rev_app_append _ (String c "")). unfold String.rev.
    by rewrite IH, append_assoc.
Qed.

Lemma rev_involutive (s : string) : String.rev (String.rev s) = s.
Proof.
  induction s as [|c s IH]; [done|].
  unfold String.rev at 2. simpl. rewrite rev_app_append, rev_append, IH.
  done.
Qed.

Lemma str_map_append (f : ascii → ascii) (s t : string) :
  str_map f (s ++ t)%string = (str_map f s ++ str_map f t)%string.
Proof.
  induction s as [|c s IH]; [done|].
  rewrite append_cons. simpl. by rewrite append_cons, IH.
Qed.

Lemma str_map_rev (f : ascii → ascii) (s : string) :
  str_map f (String.rev s) = String.rev (str_map f s).
Proof.
  induction s as [|c s IH]; [done|].
  unfold String.rev. simpl. rewrite !(rev_app_append _ (String _ "")).
  by rewrite str_map_append, IH.
Qed.

Lemma py_isspace_upper (c : ascii) : py_isspace (ascii_upper c) = py_isspace c.
Proof. by destruct c as [[] [] [] [] [] [] [] []]. Qed.

Lemma ascii_upper_idemp (c : ascii) :
  ascii_upper (ascii_upper c) = ascii_upper c.
Proof. by destruct c as [[] [] [] [] [] [] [] []]. Qed.

Lemma upper_idemp (s : string) : upper (upper s) = upper s.
Proof.
  unfold upper. induction s as [|c s IH]; [done|].
  simpl. by rewrite ascii_upper_idemp, IH.
Qed.

Lemma lstrip_upper (s : string) : lstrip (upper s) = upper (lstrip s).
Proof.
  unfold upper. induction s as [|c s IH]; [done|].
  simpl. rewrite py_isspace_upper. by destruct (py_isspace c).
Qed.

Lemma upper_rev (s : string) : upper (String.rev s) = String.rev (upper s).
Proof. apply str_map_rev. Qed.

Lemma strip_upper (s : string) : strip (upper s) = upper (strip s).
Proof.
  unfold strip, rstrip.
  by rewrite lstrip_upper, <- upper_rev, lstrip_upper, <- upper_rev.
Qed.

Lemma lstrip_idemp (s : string) : lstrip (lstrip s) = lstrip s.
Proof.
  induction s as [|c s IH]; [done|].
  simpl. destruct (py_isspace c) eqn:Hc; [done|]. simpl. by rewrite Hc.
Qed.

Lemma lstrip_cases (s : string) :
  lstrip s = ""
  ∨ ∃ c t, lstrip s = String c t ∧ py_isspace c = false.
Proof.
  induction s as [|c s IH]; [by left|].
  simpl. destruct (py_isspace c) eqn:Hc; [done|]. right. eauto.
Qed.

Lemma lstrip_append (u v : string) (c : ascii) :
  py_isspace c = false →
  lstrip (u ++ String c v)%string = (lstrip u ++ String c v)%string.
Proof.
  intros Hc. induction u as [|a u IH]; simpl; [by rewrite Hc|].
  by destruct (py_isspace a).
Qed.

Lemma rstrip_cons (c : ascii) (t : string) :
  py_isspace c = false → rstrip (String c t) = String c (rstrip t).
Proof.
  intros Hc. unfold rstrip. unfold String.rev at 2. simpl.
  rewrite rev_app_append, lstrip_append by done.
  by rewrite rev_append.
Qed.

Lemma rstrip_idemp (s : string) : rstrip (rstrip s) = rstrip s.
Proof. unfold rstrip. by rewrite rev_involutive, lstrip_idemp. Qed.

Lemma strip_idemp (s : string) : strip (strip s) = strip s.
Proof.
  unfold strip. destruct (lstrip_cases s) as [->|(c & t & -> & Hc)].
  - done.
  - rewrite rstrip_cons by done. simpl. rewrite Hc.
    by rewrite <- (rstrip_cons c t Hc), rstrip_idemp.
Qed.

Lemma lstrip_all_space (s : string) : lstrip s = "" ↔ all_space s = true.
Proof.
  induction s as [|c s IH]; [done|].
  simpl. destruct (py_isspace c); [done|]. by split.
Qed.

Lemma strip_all_space (s : string) : strip s = "" ↔ all_space s = true.
Proof.
  rewrite <- lstrip_all_space. unfold strip.
  destruct (lstrip_cases s) as [->|(c & t & -> & Hc)]; [done|].
  by rewrite rstrip_cons.
Qed.

Lemma str_map_empty (f : ascii → ascii) (s : string) :
  str_map f s = "" ↔ s = "".
Proof. by destruct s. Qed.
End StringFacts.

Section CleanCompFacts.
Context `{PyFloat F}.

(** Normalising a label that is already normalised changes nothing, so a
    key built with [clean_comp] is found again under [clean_comp]. *)
Theorem clean_comp_idempotent (x : value F) :
  clean_comp (VStr (clean_comp x) : value F) = clean_comp x.
Proof.
  unfold clean_comp. simpl.
  by rewrite strip_upper, upper_idemp, strip_idemp.
Qed.

(** The blank test of the two row loops: a label normalises to the empty
    string exactly when its [str()] consists of whitespace only.  The text
    of an empty cell is "None", so an empty cell is never blank. *)
Theorem clean_comp_blank_iff (x : value F) :
  (clean_comp x = "" ↔ all_space (py_str x) = true)
  ∧ clean_comp (VNone : value F) ≠ "".
Proof.
  split; [|done]. unfold clean_comp, upper.
  by rewrite str_map_empty, strip_all_space.
Qed.
End CleanCompFacts.

(** ** Header detection in the plan preview *)

Section DetectHeaderFacts.
Context `{PyFloat F}.
Implicit Types (kw : gset string) (rows : list (list (value F))).

Lemma row_has_key_word_iff kw (row : list (value F)) :
  row_has_key_word kw row ↔ ∃ v, v ∈ row ∧ preview_cell v ∈ kw.
Proof.
  unfold row_has_key_word. split.
  - intros Hne. apply set_choose_L in Hne as [s Hs].
    apply elem_of_intersection in Hs as [Hkw Hrow].
    apply elem_of_list_to_set, list_elem_of_fmap in Hrow as (v & -> & Hv).
    by exists v.
  - intros (v & Hv & Hkw) Hemp.
    assert (preview_cell v ∈ kw ∩ list_to_set (preview_cell <$> row)) as Hin.
    { apply elem_of_intersection. split; [done|].
      apply elem_of_list_to_set, list_elem_of_fmap. by exists v. }
    rewrite Hemp in Hin. by apply not_elem_of_empty in Hin.
Qed.

Lemma detect_from_first kw rows :
  ∀ k : Z,
    match detect_from kw k rows with
    | Some i =>
        ∃ j : nat,
          i = k + Z.of_nat j
          ∧ (∃ row, rows !! j = Some row ∧ row_has_key_word kw row)
          ∧ ∀ (j' : nat) row, (j' < j)%nat → rows !! j' = Some row →
                              ¬ row_has_key_word kw row
    | None => ∀ row, row ∈ rows → ¬ row_has_key_word kw row
    end.
Proof.
  induction rows as [|row rows IH]; intros k.
  - simpl. by intros row ?%elem_of_nil.
  - cbn [detect_from]. case_decide as Hrow.
    + exists O. split; [lia|]. split; [by exists row|]. intros j' ?. lia.
    + specialize (IH (k + 1)). destruct (detect_from kw (k + 1) rows) as [i|].
      * destruct IH as (j & -> & Hj & Hbefore). exists (S j).
        split; [lia|]. split; [done|].
        intros [|j'] row' Hlt Hlook; [by injection Hlook as <-|].
        apply (Hbefore j'); [lia|done].
      * intros row' [-> |Hin]%elem_of_cons; [done|by apply IH].
Qed.

Lemma detect_from_first_header kw (df_preview : list (list (value F))) :
  first_header_row kw df_preview (detect_from kw 0 df_preview).
Proof.
  pose proof (detect_from_first kw df_preview 0) as Hd.
  unfold first_header_row. destruct (detect_from kw 0 df_preview) as [i|].
  - destruct Hd as (j & -> & (row & Hrow & Hkw) & Hbefore).
    replace (Z.to_nat (0 + Z.of_nat j)) with j by lia.
    split; [lia|]. split.
    + exists row. split; [done|]. by apply row_has_key_word_iff.
    + intros j' row' Hlt Hlook v Hv Hin.
      apply (Hbefore j' row' Hlt Hlook), row_has_key_word_iff. by exists v.
  - intros row v Hrow Hv Hin.
    apply (Hd row Hrow), row_has_key_word_iff. by exists v.
Qed.

(** [detect_header_row] returns the index of the first preview row having a
    cell whose trimmed text is one of the keywords (a missing cell reads as
    the empty string), and nothing when no row has one; without keywords, or
    with an empty set of them, the keywords are "Delphi PN" and
    "Material". *)
Theorem detect_header_row_first (df_preview : list (list (value F))) :
  (∀ kw, kw ≠ ∅ →
         first_header_row kw df_preview
                          (detect_header_row df_preview (Some kw)))
  ∧ first_header_row default_key_words df_preview
                     (detect_header_row df_preview None)
  ∧ first_header_row default_key_words df_preview
                     (detect_header_row df_preview (Some ∅)).
Proof.
  split; [|split].
  - intros kw Hkw. unfold detect_header_row. rewrite decide_False by done.
    apply detect_from_first_header.
  - apply detect_from_first_header.
  - unfold detect_header_row. rewrite decide_True by done.
    apply detect_from_first_header.
Qed.
End DetectHeaderFacts.


Lemma detect_header_row_first_witness :
  first_header_row {[ "FG" ]}
    [ [VNone; VStr "Plan"]; [VStr " FG "; VNum (1 : Z)] ]
    (detect_header_row
       [ [VNone; VStr "Plan"]; [VStr " FG "; VNum (1 : Z)] ]
       (Some {[ "FG" ]})).
Proof.
  exact (proj1 (detect_header_row_first
                  [ [VNone; VStr "Plan"]; [VStr " FG "; VNum (1 : Z)] ])
               {[ "FG" ]} (non_empty_singleton_L _)).
Defined.

(** ** Step 7: from the shortage table back to the plan sheet *)

Section SplitFacts.

Lemma split_char_cons (sep c : ascii) (s : string) :
  ∃ w ws, split_char sep s = w :: ws
          ∧ split_char sep (String c s)
            = if decide (c = sep) then "" :: w :: ws else String c w :: ws.
Proof.
  assert (∀ t, ∃ w ws, split_char sep t = w :: ws) as Hne.
  { induction t as [|a t (w & ws & IH)]; [by eexists _, _|].
    simpl. case_decide; [by eexists _, _|]. rewrite IH. by eexists _, _. }
  destruct (Hne s) as (w & ws & Hs). exists w, ws. split; [done|].
  simpl. rewrite Hs. by case_decide.
Qed.

Lemma split_char_before_sep (sep : ascii) (x t : string) :
  split_char sep x = [x] →
  split_char sep (x ++ String sep t)%string = x :: split_char sep t.
Proof.
  induction x as [|c x IH]; intros Hx.
  - simpl. by rewrite decide_True.
  - rewrite append_cons.
    destruct (split_char_cons sep c x) as (w & ws & Hw & Hcx).
    rewrite Hcx in Hx.
    destruct (split_char_cons sep c (x ++ String sep t)%string)
      as (w' & ws' & Hw' & ->).
    case_decide; [done|]. injection Hx as -> ->.
    rewrite IH in Hw' by done. by injection Hw' as <- <-.
Qed.

Lemma strip_leading_space (s : string) : strip (String " " s) = strip s.
Proof. reflexivity. Qed.

Lemma split_strip_join (l : list string) :
  l ≠ [] →
  Forall (fun x => split_char "," x = [x] ∧ strip x = x) l →
  strip <$> split_char "," (join ", " l) = l.
Proof.
  induction l as [|x l IH]; [done|]. intros _ Hl.
  apply Forall_cons in Hl as [[Hx Hsx] Hl].
  destruct l as [|y l]; [simpl; by rewrite Hx, fmap_cons, Hsx|].
  change (join ", " (x :: y :: l))
    with (x ++ String "," (String " " (join ", " (y :: l))))%string.
  rewrite split_char_before_sep by done.
  destruct (split_char_cons "," " " (join ", " (y :: l)))
    as (w & ws & Hw & ->).
  rewrite decide_False by done.
  rewrite !fmap_cons, Hsx, strip_leading_space. f_equal.
  rewrite <- (IH ltac:(done) Hl), Hw. done.
Qed.
End SplitFacts.

Section HighlightFacts.
Context `{PyFloat F}.
Variable to_date : value F → option date.
Implicit Types (ws : sheet F).

(** Splitting the rendered finished goods of a shortage at commas and
    trimming the pieces gives back the sorted codes, provided no code holds
    a comma or starts or ends with whitespace; the placeholder of an empty
    set comes back as itself. *)
Theorem rendered_codes_split_back (s : gset string) :
  (s ≠ ∅ →
   (∀ x, x ∈ s → split_char "," x = [x] ∧ strip x = x) →
   strip <$> split_char "," (render_fgs s) = sorted s)
  ∧ strip <$> split_char "," (render_fgs ∅) = [placeholder].
Proof.
  split; [|by rewrite render_fgs_empty].
  intros Hne Hclean. rewrite render_fgs_nonempty by done.
  apply split_strip_join; [by rewrite sorted_nil|].
  apply Forall_forall. intros x Hx. by apply Hclean, elem_of_sorted.
Qed.

(** The header cell that names the finished-good column. *)
Local Abbreviation is_fg_header v :=
  (∃ s, v = VStr s ∧ lower (strip s) = "delphi pn").

Lemma scan_header_inv ws (h : Z) (cols : list Z) :
  let st := foldl (scan_header_cell to_date ws h) (None, ∅) cols in
  match st.1 with
  | Some c => c ∈ cols ∧ is_fg_header (cell_value ws h c)
  | None => ∀ c, c ∈ cols → ¬ is_fg_header (cell_value ws h c)
  end
  ∧ ∀ d c, st.2 !! d = Some c →
           c ∈ cols ∧ to_date (cell_value ws h c) = Some d.
Proof.
  induction cols as [|c0 cols IH] using rev_ind.
  - simpl. split; [by intros c ?%elem_of_nil|]. intros d c.
    by rewrite lookup_empty.
  - rewrite foldl_snoc. cbn zeta in *.
    destruct (foldl _ _ cols) as [fg m]. destruct IH as [IHfg IHm].
    unfold scan_header_cell. cbn [fst snd] in *. split.
    + assert (Decision (is_fg_header (cell_value ws h c0))) as [Hhdr|Hhdr].
      { destruct (cell_value ws h c0) as [|s| |];
          try (right; intros (? & ? & ?); congruence).
        destruct (decide (lower (strip s) = "delphi pn"));
          [left; by exists s|right; intros (? & [= <-] & ?); done]. }
      * destruct Hhdr as (s & Hv & Hs). rewrite Hv, decide_True by done.
        split; [apply elem_of_app; right; apply list_elem_of_here|].
        rewrite Hv. by exists s.
      * assert (match cell_value ws h c0 with
                | VStr s => if decide (lower (strip s) = "delphi pn")
                            then Some c0 else fg
                | _ => fg
                end = fg) as ->.
        { destruct (cell_value ws h c0) as [|s| |]; try done.
          case_decide; [|done]. destruct Hhdr. by exists s. }
        destruct fg as [c|].
        -- destruct IHfg as [Hin Hc]. split; [|done].
           apply elem_of_app. by left.
        -- intros c [Hin|Hin%list_elem_of_singleton]%elem_of_app;
             [by apply IHfg|by subst].
    + intros d c.
      destruct (to_date (cell_value ws h c0)) as [d0|] eqn:Hd0.
      * destruct (decide (d0 = d)) as [->|Hne].
        -- rewrite lookup_insert_eq. intros [= <-]. split; [|done].
           apply elem_of_app. right. apply list_elem_of_here.
        -- rewrite lookup_insert_ne by done. intros Hm.
           destruct (IHm d c Hm). split; [|done]. apply elem_of_app. by left.
      * intros Hm. destruct (IHm d c Hm). split; [|done].
        apply elem_of_app. by left.
Qed.

Lemma highlight_error_iff ws (hdr_row : Z) (short_df : list shortage) :
  highlight_shortages to_date ws hdr_row short_df
  = Raise (ValueError
             "Could not find 'Delphi PN' column in PLAN sheet header")
  ↔ ∀ c, 1 ≤ c ≤ max_column ws →
         ¬ is_fg_header (cell_value ws (hdr_row + 1) c).
Proof.
  unfold highlight_shortages, scan_header.
  pose proof (scan_header_inv ws (hdr_row + 1)
                (py_range 1 (max_column ws + 1))) as [Hfg _].
  cbn zeta in Hfg.
  destruct (foldl _ _ (py_range 1 (max_column ws + 1))) as [fg m].
  cbn [fst] in Hfg. destruct fg as [fgc|]; split; try done.
  - intros Hnone. destruct Hfg as [Hin%elem_of_py_range Hhdr].
    destruct (Hnone fgc); [lia|done].
  - intros _ c Hc. apply Hfg, elem_of_py_range. lia.
Qed.

Lemma highlight_cells_sound ws (hdr_row : Z) (short_df : list shortage)
    (red : gset (Z * Z)) (r c : Z) :
  highlight_shortages to_date ws hdr_row short_df = Ok red →
  (r, c) ∈ red →
  hdr_row + 1 < r ≤ max_row ws
  ∧ 1 ≤ c ≤ max_column ws
  ∧ fgt (safe_float (cell_value ws r c)) f0 = true
  ∧ ∃ fg_col d,
      is_fg_header (cell_value ws (hdr_row + 1) fg_col)
      ∧ cell_value ws r fg_col ≠ VNone
      ∧ to_date (cell_value ws (hdr_row + 1) c) = Some d
      ∧ (strip (py_str (cell_value ws r fg_col)), d)
          ∈ short_fg_date short_df.
Proof.
  unfold highlight_shortages, scan_header.
  pose proof (scan_header_inv ws (hdr_row + 1)
                (py_range 1 (max_column ws + 1))) as [Hfg Hm].
  cbn zeta in Hfg, Hm.
  destruct (foldl _ _ (py_range 1 (max_column ws + 1))) as [fg m].
  cbn [fst snd] in Hfg, Hm.
  intros Hok Hin. destruct fg as [fgc|]; [|done].
  injection Hok as <-. destruct Hfg as [_ Hhdr].
  apply elem_of_union_list in Hin as (cells & Hcells & Hin).
  apply list_elem_of_fmap in Hcells as (r0 & -> & Hr0%elem_of_py_range).
  unfold highlight_row in Hin.
  destruct (cell_value ws r0 fgc) as [|s|x|repr] eqn:Hfgv;
    [by apply not_elem_of_empty in Hin| | |];
    apply elem_of_list_to_set, list_elem_of_omap in Hin
      as ([d col] & Hdc%elem_of_map_to_list & Hsome);
    destruct (Hm d col Hdc) as [Hcol%elem_of_py_range Hdate];
    case_decide as Hshort; [|done| |done| |done];
    destruct (fgt _ f0) eqn:Hqty; try done;
    injection Hsome as <- <-;
    (split; [lia|]); (split; [lia|]); (split; [done|]);
    exists fgc, d; rewrite Hfgv; by split_and!.
Qed.

(** Step 7 fails, with the [ValueError] naming the "Delphi PN" column,
    exactly when no cell of the header row reads "delphi pn" after trimming
    and lower-casing.  When it succeeds, every cell it fills lies below the
    header row, in a column whose header cell is a date, holds a quantity
    strictly above zero, and belongs to a row whose finished good (the
    trimmed text of a "Delphi PN" column, not an empty cell) is paired with
    that date in the shortage table. *)
Theorem highlight_only_implicated_cells ws (hdr_row : Z)
    (short_df : list shortage) :
  (highlight_shortages to_date ws hdr_row short_df
   = Raise (ValueError
              "Could not find 'Delphi PN' column in PLAN sheet header")
   ↔ ∀ c, 1 ≤ c ≤ max_column ws →
          ¬ is_fg_header (cell_value ws (hdr_row + 1) c))
  ∧ (∀ red r c,
       highlight_shortages to_date ws hdr_row short_df = Ok red →
       (r, c) ∈ red →
       hdr_row + 1 < r ≤ max_row ws
       ∧ 1 ≤ c ≤ max_column ws
       ∧ fgt (safe_float (cell_value ws r c)) f0 = true
       ∧ ∃ fg_col d,
           is_fg_header (cell_value ws (hdr_row + 1) fg_col)
           ∧ cell_value ws r fg_col ≠ VNone
           ∧ to_date (cell_value ws (hdr_row + 1) c) = Some d
           ∧ (strip (py_str (cell_value ws r fg_col)), d)
               ∈ short_fg_date short_df).
Proof.
  split; [apply highlight_error_iff|].
  intros red r c. apply highlight_cells_sound.
Qed.

(** With an empty shortage table step 7 fills no cell. *)
Theorem highlight_nothing_without_shortages ws (hdr_row : Z)
    (red : gset (Z * Z)) :
  highlight_shortages to_date ws hdr_row [] = Ok red → red = ∅.
Proof.
  intros Hok. apply set_eq. intros [r c].
  split; [|by intros ?%not_elem_of_empty]. intros Hin.
  destruct (highlight_cells_sound ws hdr_row [] red r c Hok Hin)
    as (_ & _ & _ & fg_col & d & _ & _ & _ & Hshort).
  by apply not_elem_of_empty in Hshort.
Qed.
End HighlightFacts.

Lemma rendered_codes_split_back_witness :
  strip <$> split_char "," (render_fgs {[ "FG1"; "FG2" ]})
  = sorted {[ "FG1"; "FG2" ]}.
Proof.
  apply rendered_codes_split_back.
  - apply (non_empty_inhabited_L "FG1"). set_solver.
  - intros x [->%elem_of_singleton| ->%elem_of_singleton]%elem_of_union;
      by vm_compute.
Defined.

Lemma highlight_only_implicated_cells_witness :
  0 + 1 < 2 ≤ max_row Sample.ws_plan
  ∧ fgt (safe_float (cell_value Sample.ws_plan 2 3)) f0 = true.
Proof.
  pose proof (proj2 (highlight_only_implicated_cells Sample.to_date
                       Sample.ws_plan 0
                       [(Sample.day1, "C1", "FG1");
                        (Sample.day2, "C1", "FG1")])
                {[ (2, 3) ]} 2 3) as Hw.
  destruct Hw as (Hr & _ & Hqty & _);
    [by vm_compute | by apply elem_of_singleton |].
  by split.
Defined.

Lemma highlight_nothing_without_shortages_witness :
  (∅ : gset (Z * Z)) = ∅.
Proof.
  apply (highlight_nothing_without_shortages Sample.to_date Sample.ws_plan 0).
  by vm_compute.
Defined.

(** ** The long plan *)

Section MeltFacts.
Context `{PyFloat F}.

Lemma elem_of_enumerate_from {A} (l : list A) (i : Z) (x : A) :
  ∀ k : Z,
    (i, x) ∈ enumerate_from k l
    ↔ ∃ j : nat, i = k + Z.of_nat j ∧ l !! j = Some x.
Proof.
  induction l as [|y l IH]; intros k.
  - simpl. split; [by intros ?%elem_of_nil|by intros (j & _ & ?)].
  - cbn [enumerate_from]. rewrite elem_of_cons, IH. split.
    + intros [[= -> ->]|(j & -> & Hj)]; [exists O|exists (S j)];
        (split; [lia|done]).
    + intros ([|j] & -> & Hj).
      * left. injection Hj as ->. f_equal. lia.
      * right. exists j. split; [lia|done].
Qed.

(** The long plan has a row for a finished good, a date and a quantity
    exactly when some line of the wide table for that finished good holds
    that quantity in the cell under a date column of that date: a missing
    cell, or a line too short to reach the column, gives no row. *)
Theorem plan_long_rows (date_cols : list date) (plan_data : list (PlanLine F))
    (p : PlanRow F) :
  p ∈ dropna (melt date_cols plan_data)
  ↔ ∃ (ln : PlanLine F) (j : nat),
      ln ∈ plan_data
      ∧ date_cols !! j = Some (plan_Date p)
      ∧ line_cells ln !! j = Some (Some (plan_QtyPlanned p))
      ∧ line_FG ln = plan_FG p.
Proof.
  rewrite elem_of_dropna. unfold melt. split.
  - intros (r & Hr & Hq & Hfg & Hd).
    apply list_elem_of_bind in Hr as ([i d] & Hr & Hid).
    apply list_elem_of_fmap in Hr as (ln & -> & Hln).
    apply elem_of_enumerate_from in Hid as (j & -> & Hj).
    simpl in *. exists ln, j.
    replace (Z.to_nat (0 + Z.of_nat j)) with j in Hq by lia.
    split_and!; try done; [congruence|].
    destruct (line_cells ln !! j) as [[q|]|]; simpl in Hq; congruence.
  - intros (ln & j & Hln & Hj & Hcell & Hfg).
    exists {| melt_FG := line_FG ln; melt_Date := plan_Date p;
              melt_QtyPlanned := Some (plan_QtyPlanned p) |}.
    split; [|done]. apply list_elem_of_bind.
    exists (Z.of_nat j, plan_Date p). split.
    + apply list_elem_of_fmap. exists ln. split; [|done].
      by rewrite Nat2Z.id, Hcell.
    + apply elem_of_enumerate_from. exists j. split; [lia|done].
Qed.
End MeltFacts.
